(** * Account, task and bank services: a shallow embedding

    The Python sources embedded here are

    - [task_bank/models/account.py] and [task_bank/services/bank_service.py],
    - [task-management-system1/models/task.py] and
      [task-management-system1/services/task_service.py],
    - [pytest-1/python/bank_account.py].

    Methods that mutate [self], write files, log or raise are computations
    in a state-and-exception monad [M].  A Python module becomes a Rocq
    module of the same name, a class becomes a record, a method becomes a
    definition of the method's name. *)

From stdpp Require Import base option list strings gmap numbers.
From Stdlib Require Import Ascii QArith Qcanon DecimalString DecimalNat.

Local Set Warnings "-register-all".
Local Open Scope string_scope.
Local Open Scope list_scope.

(** ** Exceptions *)

(** The exceptions that the embedded code raises or catches.  The
    argument is what [str(e)] shows. *)
Inductive exn :=
| ValueError (msg : string)
| JSONDecodeError
| KeyError (key : string)
| TypeError
| AttributeError
| FileNotFoundError (path : string)
| OSError (path : string).

(** The classes named in [except] clauses, with Python's hierarchy:
    [json.JSONDecodeError] derives from [ValueError] and
    [FileNotFoundError] from [OSError]. *)
Inductive exn_class :=
| ExceptionC | ValueErrorC | JSONDecodeErrorC | FileNotFoundErrorC.

Definition isinstance (e : exn) (c : exn_class) : bool :=
  match c, e with
  | ExceptionC, _ => true
  | ValueErrorC, (ValueError _ | JSONDecodeError) => true
  | JSONDecodeErrorC, JSONDecodeError => true
  | FileNotFoundErrorC, FileNotFoundError _ => true
  | _, _ => false
  end.

(** ** The monad of a method body *)

Inductive result (A : Type) :=
| Return (a : A)
| Raise (e : exn).
Arguments Return {A} a.
Arguments Raise {A} e.

(** A computation over a mutable state [St]: it ends by returning or by
    raising, and the state it leaves is kept in both cases (Python does
    not undo assignments when an exception unwinds). *)
Definition M (St A : Type) : Type := St → result A * St.

Definition ret {St A} (a : A) : M St A := λ s, (Return a, s).
Definition raise {St A} (e : exn) : M St A := λ s, (Raise e, s).
Definition bind {St A B} (m : M St A) (k : A → M St B) : M St B :=
  λ s, match m s with
       | (Return a, s') => k a s'
       | (Raise e, s') => (Raise e, s')
       end.
Definition get {St} : M St St := λ s, (Return s, s).
Definition put {St} (s : St) : M St () := λ _, (Return (), s).

Declare Scope py_scope.
Delimit Scope py_scope with py.
Notation "x <- m ;; k" := (bind m (λ x, k))
  (at level 100, m at next level, right associativity) : py_scope.
Notation "m ;; k" := (bind m (λ _, k))
  (at level 100, right associativity) : py_scope.
Local Open Scope py_scope.

(** [try: m except C1 as e: h1 e except C2 as e: h2 e ...]: the first
    clause whose class the exception is an instance of handles it; with
    no such clause the exception goes on. *)
Fixpoint dispatch {St A} (e : exn) (hs : list (exn_class * (exn → M St A)))
  : M St A :=
  match hs with
  | [] => raise e
  | (c, h) :: hs' => if isinstance e c then h e else dispatch e hs'
  end.

Definition try_except {St A} (m : M St A)
    (hs : list (exn_class * (exn → M St A))) : M St A :=
  λ s, match m s with
       | (Return a, s') => (Return a, s')
       | (Raise e, s') => dispatch e hs s'
       end.

(** ** Values, files and the log *)

(** The values [json.load] produces and [json.dump] accepts.  A [float]
    is an exact rational: rounding, infinities and NaN are not modelled. *)
Inductive pyval :=
| PNone
| PBool (b : bool)
| PInt (z : Z)
| PFloat (q : Qc)
| PStr (s : string)
| PList (l : list pyval)
| PDict (d : gmap string pyval).

(** [data[key]] for a string [key]. *)
Definition subscript {St} (data : pyval) (key : string) : M St pyval :=
  match data with
  | PDict d => match d !! key with
               | Some v => ret v
               | None => raise (KeyError key)
               end
  | _ => raise TypeError
  end.

(** The records below give each field the type its constructor annotates
    ([int], [str], [float]); Python itself stores whatever it is handed.
    A value of another type has no image in the record, and the model
    raises [TypeError] for it. *)
Definition as_int {St} (v : pyval) : M St Z :=
  match v with PInt z => ret z | _ => raise TypeError end.
Definition as_str {St} (v : pyval) : M St string :=
  match v with PStr s => ret s | _ => raise TypeError end.
Definition as_float {St} (v : pyval) : M St Qc :=
  match v with
  | PFloat q => ret q
  | PInt z => ret (Q2Qc (inject_Z z))
  | _ => raise TypeError
  end.

(** What a path holds: text that [json.load] rejects, or the JSON
    document of a value. *)
Inductive file :=
| Text (s : string)
| Json (v : pyval).

Inductive levelname := DEBUG | INFO | WARNING | ERROR | CRITICAL.

(** An f-string is kept as its pieces: literal text and formatted
    fields, unrendered. *)
Inductive piece :=
| Lit (s : string)
| Fixed2 (q : Qc)          (* {q:.2f} *)
| Int (z : Z)              (* {z} *)
| Exc (e : exn).           (* {e} *)

Record LogRecord := mkLogRecord {
  level : levelname;
  message : list piece;
  exc_info : bool
}.

(** The world outside the process: the file system, the paths that
    cannot be opened for writing, and what the logger has emitted
    (oldest first). *)
Record World := mkWorld {
  files : gmap string file;
  unwritable : gset string;
  log : list LogRecord
}.

(** The world after the logger emitted [r], and after [path] was
    given the content [f]. *)
Definition logged (r : LogRecord) (w : World) : World :=
  mkWorld (files w) (unwritable w) (log w ++ [r]).
Definition written (path : string) (f : file) (w : World) : World :=
  mkWorld (<[path := f]> (files w)) (unwritable w) (log w).

(** A service object together with the world it runs in. *)
Record Sys (T : Type) := mkSys {
  self : T;
  world : World
}.
Arguments mkSys {T} self world.
Arguments self {T} s.
Arguments world {T} s.

Section io.
Context {T : Type}.

Definition get_self : M (Sys T) T := λ s, (Return (self s), s).
Definition set_self (x : T) : M (Sys T) () :=
  λ s, (Return (), mkSys x (world s)).

Definition emit (r : LogRecord) : M (Sys T) () :=
  λ s, (Return (), mkSys (self s) (logged r (world s))).

Definition logger_info (msg : list piece) : M (Sys T) () :=
  emit (mkLogRecord INFO msg false).
Definition logger_warning (msg : list piece) : M (Sys T) () :=
  emit (mkLogRecord WARNING msg false).
Definition logger_error (msg : list piece) : M (Sys T) () :=
  emit (mkLogRecord ERROR msg false).
(** [logger.exception] logs at level ERROR with the traceback. *)
Definition logger_exception (msg : list piece) : M (Sys T) () :=
  emit (mkLogRecord ERROR msg true).

(** [json.load(open(path, "r"))]: opening raises when there is no
    such file, parsing raises on text that is not JSON. *)
Definition open_r_json_load (path : string) : M (Sys T) pyval :=
  λ s, match files (world s) !! path with
       | None => (Raise (FileNotFoundError path), s)
       | Some (Text _) => (Raise JSONDecodeError, s)
       | Some (Json v) => (Return v, s)
       end.

(** [open(path, "w")]: raises where the path cannot be written,
    otherwise truncates the file. *)
Definition open_w (path : string) : M (Sys T) () :=
  λ s, if bool_decide (path ∈ unwritable (world s))
       then (Raise (OSError path), s)
       else (Return (), mkSys (self s) (written path (Text "") (world s))).

(** [json.dump(data, f, indent=4)] on the file opened at [path]. *)
Definition json_dump (data : pyval) (path : string) : M (Sys T) () :=
  λ s, (Return (), mkSys (self s) (written path (Json data) (world s))).
End io.

(** ** models/account.py *)

Module account.

Record Account := mkAccount {
  account_number : string;
  account_holder : string;
  balance : Qc
}.

Definition deposit (amount : Qc) : M Account () :=
  self <- get;;
  if bool_decide (amount <= 0)%Qc
  then raise (ValueError "Deposit amount must be positive.")
  else put (mkAccount (account_number self) (account_holder self)
                      (balance self + amount)%Qc).

Definition withdraw (amount : Qc) : M Account () :=
  self <- get;;
  if bool_decide (amount <= 0)%Qc
  then raise (ValueError "Withdrawal amount must be positive.")
  else if bool_decide (balance self < amount)%Qc   (* amount > self.balance *)
  then raise (ValueError "Insufficient balance.")
  else put (mkAccount (account_number self) (account_holder self)
                      (balance self - amount)%Qc).

Definition to_dict (self : Account) : gmap string pyval :=
  {[ "account_number" := PStr (account_number self);
     "account_holder" := PStr (account_holder self);
     "balance" := PFloat (balance self) ]}.

Definition from_dict {St} (data : pyval) : M St Account :=
  n <- (v <- subscript data "account_number";; as_str v);;
  h <- (v <- subscript data "account_holder";; as_str v);;
  b <- (v <- subscript data "balance";; as_float v);;
  ret (mkAccount n h b).

End account.

(** ** services/bank_service.py *)

Module bank_service.
Import account.

Record BankService := mkBankService {
  data_source : string;
  accounts : gmap string Account
}.

(** [self.accounts = a] *)
Definition set_accounts (a : gmap string Account) : M (Sys BankService) () :=
  self <- get_self;;
  set_self (mkBankService (data_source self) a).

(** [self.accounts[key] = acc] *)
Definition accounts_setitem (key : string) (acc : Account)
  : M (Sys BankService) () :=
  self <- get_self;;
  set_self (mkBankService (data_source self) (<[key := acc]> (accounts self))).

(** [accounts_data.items()]: only a dict has the method. *)
Definition items (data : pyval) : M (Sys BankService) (list (string * pyval)) :=
  match data with
  | PDict d => ret (map_to_list d)
  | _ => raise AttributeError
  end.

(** The [for] loop of [load_accounts]. *)
Fixpoint load_items (its : list (string * pyval)) : M (Sys BankService) () :=
  match its with
  | [] => ret ()
  | (acc_num, acc_data) :: rest =>
      acc <- from_dict acc_data;;
      accounts_setitem acc_num acc;;
      load_items rest
  end.

Definition load_accounts : M (Sys BankService) () :=
  try_except
    (self <- get_self;;
     accounts_data <- open_r_json_load (data_source self);;
     its <- items accounts_data;;
     load_items its;;
     logger_info [Lit "Accounts loaded from file."])
    [ (FileNotFoundErrorC, λ _,
         self <- get_self;;
         logger_warning [Lit "Data source file '"; Lit (data_source self);
                         Lit "' not found.  Starting with empty account list."];;
         set_accounts ∅);
      (JSONDecodeErrorC, λ _,
         self <- get_self;;
         logger_error [Lit "Error decoding JSON in '"; Lit (data_source self);
                       Lit "'. Starting with empty account list."];;
         set_accounts ∅);
      (ExceptionC, λ e,
         logger_exception
           [Lit "An unexpected error occurred while loading accounts: "; Exc e];;
         set_accounts ∅) ].

Definition save_accounts : M (Sys BankService) () :=
  try_except
    (self <- get_self;;
     let accounts_data := PDict ((λ acc, PDict (to_dict acc)) <$> accounts self) in
     open_w (data_source self);;
     json_dump accounts_data (data_source self);;
     logger_info [Lit "Accounts successfully saved"])
    [ (ExceptionC, λ e,
         logger_exception [Lit "Error saving account data: "; Exc e];;
         raise e) ].

Fixpoint zeros (k : nat) : string :=
  match k with
  | O => ""
  | S k' => String "0"%char (zeros k')
  end.

(** [f"{n:04}"] for a natural number: its decimal digits, padded with
    zeros on the left to four characters. *)
Definition format_04 (n : nat) : string :=
  let digits := NilZero.string_of_uint (Nat.to_uint n) in
  zeros (4 - String.length digits) +:+ digits.

Definition _generate_account_number : M (Sys BankService) string :=
  self <- get_self;;
  let next_number := (size (accounts self) + 1)%nat in
  ret ("ACC" +:+ format_04 next_number).

Definition create_account (account_holder : string) (initial_balance : Qc)
  : M (Sys BankService) Account :=
  if bool_decide (initial_balance < 0)%Qc
  then raise (ValueError "Initial balance cannot be negative.")
  else
    account_number <- _generate_account_number;;
    let new_account := mkAccount account_number account_holder initial_balance in
    accounts_setitem account_number new_account;;
    save_accounts;;
    logger_info [Lit "Created account "; Lit account_number; Lit " for ";
                 Lit account_holder; Lit "."];;
    ret new_account.

Definition get_account (account_number : string)
  : M (Sys BankService) (option Account) :=
  self <- get_self;;
  ret (accounts self !! account_number).

(** A variable that holds an [Account] holds a reference to the object
    in [self.accounts].  Each key of [self.accounts] is bound to an
    object of its own ([load_accounts] and [create_account] build one
    per key), so the reference that [get_account key] returned is the
    key: [method key m] runs the method body [m] on the object now
    bound to [key] and leaves the object as [m] leaves it.  Two
    references from the same key are the same object.  On [None] a
    method call raises [AttributeError]. *)
Definition method {A} (key : string) (m : M Account A)
  : M (Sys BankService) A :=
  self <- get_self;;
  match accounts self !! key with
  | None => raise AttributeError
  | Some acc =>
      let '(r, acc') := m acc in
      accounts_setitem key acc';;
      match r with
      | Return a => ret a
      | Raise e => raise e
      end
  end.

(** [not account] for [account : Account | None]: an [Account] defines
    neither [__bool__] nor [__len__] and is true. *)
Definition not_ (account : option Account) : bool :=
  match account with
  | None => true
  | Some _ => false
  end.

Definition deposit (account_number : string) (amount : Qc)
  : M (Sys BankService) () :=
  account <- get_account account_number;;
  if not_ account
  then raise (ValueError ("Account " +:+ account_number +:+ " not found."))
  else
    method account_number (account.deposit amount);;
    save_accounts;;
    logger_info [Lit "Deposited "; Fixed2 amount; Lit " into account ";
                 Lit account_number; Lit "."].

Definition withdraw (account_number : string) (amount : Qc)
  : M (Sys BankService) () :=
  account <- get_account account_number;;
  if not_ account
  then raise (ValueError ("Account " +:+ account_number +:+ " not found."))
  else
    method account_number (account.withdraw amount);;
    save_accounts;;
    logger_info [Lit "Withdrew "; Fixed2 amount; Lit " from account ";
                 Lit account_number; Lit "."].

Definition transfer (from_account_number to_account_number : string)
    (amount : Qc) : M (Sys BankService) () :=
  from_account <- get_account from_account_number;;
  to_account <- get_account to_account_number;;
  if not_ from_account || not_ to_account
  then raise (ValueError "One or both accounts not found.")
  else
    try_except
      (method from_account_number (account.withdraw amount);;
       method to_account_number (account.deposit amount);;
       save_accounts;;
       logger_info [Lit "Transferred "; Fixed2 amount; Lit " from ";
                    Lit from_account_number; Lit " to ";
                    Lit to_account_number; Lit "."])
      [ (ValueErrorC, λ e,
           logger_error [Lit "Transfer failed: "; Exc e];;
           raise e) ].

Definition list_all_accounts : M (Sys BankService) (list Account) :=
  self <- get_self;;
  ret ((map_to_list (accounts self)).*2).

(** [BankService(data_source)]: [config] is the module-level
    dictionary of [utils/config.py]; [None] and the empty string are
    both false for [or]. *)
Definition __init__ (config : gmap string string) (data_source : option string)
    (w : World) : result () * Sys BankService :=
  let fallback := default "accounts.json" (config !! "data_file") in
  let ds := match data_source with
            | Some s => if bool_decide (s = "") then fallback else s
            | None => fallback
            end in
  load_accounts (mkSys (mkBankService ds ∅) w).

End bank_service.

(** ** models/task.py *)

Module task.

Record Task := mkTask {
  task_id : Z;
  title : string;
  description : string;
  due_date : string;
  status : string
}.

Definition to_dict (self : Task) : gmap string pyval :=
  {[ "task_id" := PInt (task_id self);
     "title" := PStr (title self);
     "description" := PStr (description self);
     "due_date" := PStr (due_date self);
     "status" := PStr (status self) ]}.

Definition from_dict {St} (data : pyval) : M St Task :=
  i <- (v <- subscript data "task_id";; as_int v);;
  t <- (v <- subscript data "title";; as_str v);;
  d <- (v <- subscript data "description";; as_str v);;
  dd <- (v <- subscript data "due_date";; as_str v);;
  st <- (v <- subscript data "status";; as_str v);;
  ret (mkTask i t d dd st).

End task.

(** ** services/task_service.py *)

Module task_service.
Import task.

Record TaskService := mkTaskService {
  data_source : string;
  tasks : list Task
}.

(** [self.tasks = ts] *)
Definition set_tasks (ts : list Task) : M (Sys TaskService) () :=
  self <- get_self;;
  set_self (mkTaskService (data_source self) ts).

(** [for task_data in tasks_data]: a list yields its elements, a dict
    its keys, a string its characters; nothing else in [pyval] is
    iterable. *)
Definition iter {St} (data : pyval) : M St (list pyval) :=
  match data with
  | PList l => ret l
  | PDict d => ret (PStr <$> (map_to_list d).*1)
  | PStr s => ret ((λ c, PStr (String c "")) <$> String.list_ascii_of_string s)
  | _ => raise TypeError
  end.

(** [[Task.from_dict(task_data) for task_data in l]] *)
Fixpoint from_dicts {St} (l : list pyval) : M St (list Task) :=
  match l with
  | [] => ret []
  | task_data :: rest =>
      t <- from_dict task_data;;
      ts <- from_dicts rest;;
      ret (t :: ts)
  end.

Definition load_tasks : M (Sys TaskService) () :=
  try_except
    (self <- get_self;;
     tasks_data <- open_r_json_load (data_source self);;
     l <- iter tasks_data;;
     ts <- from_dicts l;;
     set_tasks ts;;
     logger_info [Lit "Tasks loaded from file."])
    [ (FileNotFoundErrorC, λ _,
         self <- get_self;;
         logger_warning [Lit "Data source file '"; Lit (data_source self);
                         Lit "' not found.  Starting with empty task list."];;
         set_tasks []);
      (JSONDecodeErrorC, λ _,
         self <- get_self;;
         logger_error [Lit "Error decoding JSON in '"; Lit (data_source self);
                       Lit "'. Starting with empty task list."];;
         set_tasks []);
      (ExceptionC, λ e,
         logger_exception
           [Lit "An unexpected error occurred while loading tasks: "; Exc e];;
         set_tasks []) ].

Definition save_tasks : M (Sys TaskService) () :=
  try_except
    (self <- get_self;;
     open_w (data_source self);;
     let tasks_data := PList ((λ t, PDict (to_dict t)) <$> tasks self) in
     json_dump tasks_data (data_source self);;
     logger_info [Lit "Tasks saved to file."])
    [ (ExceptionC, λ e,
         logger_exception [Lit "Error saving tasks to file: "; Exc e]) ].

(** [all(l)] for a list of strings: a string is true when it is not
    empty. *)
Definition all (l : list string) : bool :=
  forallb (λ s, negb (String.eqb s "")) l.

(** [max(l, default=d)] *)
Definition max (l : list Z) (default : Z) : Z :=
  match l with
  | [] => default
  | x :: xs => foldl Z.max x xs
  end.

Definition create_task (title description due_date : string)
  : M (Sys TaskService) Task :=
  try_except
    (if negb (all [title; description; due_date])
     then raise (ValueError "All fields (title, description, due_date) are required.")
     else
       self <- get_self;;
       let next_id := (max (task_id <$> tasks self) 0 + 1)%Z in
       let new_task := mkTask next_id title description due_date "To Do" in
       set_tasks (tasks self ++ [new_task]);;
       save_tasks;;
       logger_info [Lit "Task created: "; Lit title];;
       ret new_task)
    [ (ValueErrorC, λ ve,
         logger_error [Lit "Error creating task: "; Exc ve];;
         raise ve);
      (ExceptionC, λ e,
         logger_exception
           [Lit "An unexpected error occurred while creating a task: "; Exc e];;
         raise e) ].

(** The [for] loop of [get_task]: the first task with the id. *)
Fixpoint find_task (i : Z) (ts : list Task) : option Task :=
  match ts with
  | [] => None
  | t :: rest => if bool_decide (task_id t = i) then Some t else find_task i rest
  end.

Definition get_task (i : Z) : M (Sys TaskService) (option Task) :=
  self <- get_self;;
  match find_task i (tasks self) with
  | Some t => ret (Some t)
  | None =>
      logger_warning [Lit "Task with ID "; Int i; Lit " not found."];;
      ret None
  end.

(** The task that [get_task i] returns is a reference to the first
    object of [self.tasks] with the id; the objects of the list are
    distinct objects ([load_tasks] and [create_task] build each one).
    Assigning to its attributes changes that element in place. *)
Fixpoint assign (i : Z) (f : Task → Task) (ts : list Task) : list Task :=
  match ts with
  | [] => []
  | t :: rest =>
      if bool_decide (task_id t = i) then f t :: rest else t :: assign i f rest
  end.

(** [self.tasks.remove(task)] for the task that [get_task i]
    returned: [Task] defines no [__eq__], so the element removed is
    the object itself, the first with the id. *)
Fixpoint remove (i : Z) (ts : list Task) : list Task :=
  match ts with
  | [] => []
  | t :: rest =>
      if bool_decide (task_id t = i) then rest else t :: remove i rest
  end.

Definition update_task (i : Z) (title description due_date status : string)
  : M (Sys TaskService) (option Task) :=
  task <- get_task i;;
  match task with
  | Some task =>
      try_except
        (if negb (all [title; description; due_date; status])
         then raise (ValueError
                "All fields (title, description, due_date, status) are required for update.")
         else
           let assignments t :=
             mkTask (task_id t) title description due_date status in
           self <- get_self;;
           set_tasks (assign i assignments (tasks self));;
           save_tasks;;
           logger_info [Lit "Task updated: "; Lit title];;
           ret (Some (assignments task)))
        [ (ValueErrorC, λ ve,
             logger_error [Lit "Error updating task: "; Exc ve];;
             raise ve);
          (ExceptionC, λ e,
             logger_exception [Lit "Error updating task "; Int i; Lit ": "; Exc e];;
             raise e) ]
  | None => ret None
  end.

Definition delete_task (i : Z) : M (Sys TaskService) bool :=
  task <- get_task i;;
  match task with
  | Some task =>
      self <- get_self;;
      set_tasks (remove i (tasks self));;
      save_tasks;;
      logger_info [Lit "Task deleted: "; Lit (task.title task)];;
      ret true
  | None => ret false
  end.

Definition list_all_tasks : M (Sys TaskService) (list Task) :=
  logger_info [Lit "Listing all tasks."];;
  self <- get_self;;
  ret (tasks self).

(** [TaskService(data_source)]: only the default path is loaded. *)
Definition __init__ (data_source : string) (w : World)
  : result () * Sys TaskService :=
  let s := mkSys (mkTaskService data_source []) w in
  if bool_decide (data_source = "tasks.json") then load_tasks s else ret () s.

End task_service.

(** ** pytest-1/python/bank_account.py *)

Module bank_account.

(** The class is not annotated; its default balance and its tests use
    integers. *)
Record BankAccount := mkBankAccount {
  balance : Z;
  transactions : list string
}.

Definition __init__ (initial_balance : Z) : BankAccount :=
  mkBankAccount initial_balance [].

(** [str(z)] *)
Definition str (z : Z) : string := NilZero.string_of_int (Z.to_int z).

Definition deposit (amount : Z) : M BankAccount Z :=
  self <- get;;
  (if bool_decide (amount > 0)%Z
   then put (mkBankAccount (balance self + amount)
               (transactions self ++ ["Deposited " +:+ str amount]))
   else ret ());;
  self <- get;;
  ret (balance self).

Definition withdraw (amount : Z) : M BankAccount Z :=
  self <- get;;
  (if bool_decide (0 < amount)%Z && bool_decide (amount <= balance self)%Z
   then put (mkBankAccount (balance self - amount)
               (transactions self ++ ["Withdrew " +:+ str amount]))
   else ret ());;
  self <- get;;
  ret (balance self).

Definition get_balance : M BankAccount Z :=
  self <- get;;
  ret (balance self).

End bank_account.

(** ** Callers

    A caller that invokes methods of one service object one after the
    other and goes on after an exception, as the command loop and the
    tests do.  [run] gives the outcome of every call, in order. *)

Module bank_session.
Import account bank_service.

Inductive call :=
| create_account (account_holder : string) (initial_balance : Qc)
| deposit (account_number : string) (amount : Qc)
| withdraw (account_number : string) (amount : Qc)
| transfer (from_account_number to_account_number : string) (amount : Qc).

Definition perform (c : call) : M (Sys BankService) (option Account) :=
  match c with
  | create_account h b => acc <- bank_service.create_account h b;; ret (Some acc)
  | deposit n a => bank_service.deposit n a;; ret None
  | withdraw n a => bank_service.withdraw n a;; ret None
  | transfer f t a => bank_service.transfer f t a;; ret None
  end.

Fixpoint run (cs : list call) (s : Sys BankService)
  : list (result (option Account)) * Sys BankService :=
  match cs with
  | [] => ([], s)
  | c :: cs' =>
      let '(r, s') := perform c s in
      let '(rs, s'') := run cs' s' in
      (r :: rs, s'')
  end.

(** The account numbers of the accounts that the calls returned. *)
Definition created (rs : list (result (option Account))) : list string :=
  omap (λ r, match r with
             | Return (Some acc) => Some (account_number acc)
             | _ => None
             end) rs.

End bank_session.

Module task_session.
Import task task_service.

Inductive call :=
| create_task (title description due_date : string)
| update_task (task_id : Z) (title description due_date status : string)
| delete_task (task_id : Z)
| get_task (task_id : Z).

Definition is_delete (c : call) : bool :=
  match c with
  | delete_task _ => true
  | _ => false
  end.

Definition perform (c : call) : M (Sys TaskService) (option Task) :=
  match c with
  | create_task t d dd => new_task <- task_service.create_task t d dd;; ret (Some new_task)
  | update_task i t d dd st => task_service.update_task i t d dd st;; ret None
  | delete_task i => task_service.delete_task i;; ret None
  | get_task i => task_service.get_task i;; ret None
  end.

Fixpoint run (cs : list call) (s : Sys TaskService)
  : list (result (option Task)) * Sys TaskService :=
  match cs with
  | [] => ([], s)
  | c :: cs' =>
      let '(r, s') := perform c s in
      let '(rs, s'') := run cs' s' in
      (r :: rs, s'')
  end.

(** The ids of the tasks that the calls returned. *)
Definition created (rs : list (result (option Task))) : list Z :=
  omap (λ r, match r with
             | Return (Some t) => Some (task.task_id t)
             | _ => None
             end) rs.

End task_session.

(** ** Vocabulary of the statements *)

(** What [save_tasks] and [save_accounts] hand to [json.dump]. *)
Definition tasks_document (ts : list task.Task) : file :=
  Json (PList ((λ t, PDict (task.to_dict t)) <$> ts)).
Definition accounts_document (accs : gmap string account.Account) : file :=
  Json (PDict ((λ acc, PDict (account.to_dict acc)) <$> accs)).

(** An account after [amount] was taken from, or added to, its balance. *)
Definition debited (amount : Qc) (acc : account.Account) : account.Account :=
  account.mkAccount (account.account_number acc) (account.account_holder acc)
    (account.balance acc - amount)%Qc.
Definition credited (amount : Qc) (acc : account.Account) : account.Account :=
  account.mkAccount (account.account_number acc) (account.account_holder acc)
    (account.balance acc + amount)%Qc.

(** What [transfer] leaves once the debit went through: both mutations
    are in [self.accounts], and [save_accounts] decides the outcome. *)
Definition transferred (f t : string) (a : Qc)
    (moved : bank_service.BankService) (w : World)
  : result () * Sys bank_service.BankService :=
  let path := bank_service.data_source moved in
  if bool_decide (path ∈ unwritable w)
  then
    (Raise (OSError path),
     mkSys moved
       (logged (mkLogRecord ERROR
                  [Lit "Error saving account data: "; Exc (OSError path)] true)
          w))
  else
    (Return (),
     mkSys moved
       (logged (mkLogRecord INFO
                  [Lit "Transferred "; Fixed2 a; Lit " from "; Lit f;
                   Lit " to "; Lit t; Lit "."] false)
          (logged (mkLogRecord INFO [Lit "Accounts successfully saved"] false)
             (written path (accounts_document (bank_service.accounts moved)) w)))).

(** The account number of the [i]-th account of a bank that started
    empty, and the banks whose account numbers are the first [size] of
    them. *)
Definition number (i : nat) : string := "ACC" +:+ bank_service.format_04 i.
Definition sequential (accs : gmap string account.Account) : Prop :=
  ∀ k, is_Some (accs !! k) ↔ ∃ i, (1 <= i <= size accs)%nat ∧ k = number i.

(** Reads a [format_04] back. *)
Definition unformat (s : string) : option nat :=
  Nat.of_uint <$> NilEmpty.uint_of_string s.

(** [keeps R m]: the service object that [m] leaves is related by [R] to
    the one it started from, whether [m] returns or raises. *)
Definition keeps {T A} (R : relation T) (m : M (Sys T) A) : Prop :=
  ∀ s, R (self s) (self (m s).2).

(** Same path, same account numbers, and under each number an account
    with the number and the holder it had. *)
Definition same_identities (b b' : bank_service.BankService) : Prop :=
  bank_service.data_source b' = bank_service.data_source b
  ∧ ∀ k, match bank_service.accounts b !! k, bank_service.accounts b' !! k with
         | Some a, Some a' =>
             account.account_number a' = account.account_number a
             ∧ account.account_holder a' = account.account_holder a
         | None, None => True
         | _, _ => False
         end.

(** The ids in the list of a task service. *)
Definition ids (s : Sys task_service.TaskService) : list Z :=
  task.task_id <$> task_service.tasks (self s).

(** ** Inputs of the worked examples *)

(** The integer [z] as a balance or an amount. *)
Definition qc (z : Z) : Qc := Q2Qc (inject_Z z).

Definition alice (b : Z) : account.Account :=
  account.mkAccount "ACC0001" "Alice" (qc b).
Definition bob (b : Z) : account.Account :=
  account.mkAccount "ACC0002" "Bob" (qc b).

(** A world with no files where every path can be written, one where
    tasks.json cannot be written, and one where [path] holds text that
    is not JSON. *)
Definition w_empty : World := mkWorld ∅ ∅ [].
Definition w_readonly : World := mkWorld ∅ {[ "tasks.json" ]} [].
Definition w_garbage (path : string) : World :=
  mkWorld {[ path := Text "invalid json" ]} ∅ [].

(** A bank with Alice at 150 and Bob at 0. *)
Definition bank0 : Sys bank_service.BankService :=
  mkSys (bank_service.mkBankService "accounts.json"
           {[ "ACC0001" := alice 150; "ACC0002" := bob 0 ]})
        w_empty.

(** Two tasks; a task service with both, one with none, and one with
    none whose file cannot be written. *)
Definition report : task.Task :=
  task.mkTask 1 "Report" "Quarterly numbers" "2024-03-25" "To Do".
Definition memo : task.Task :=
  task.mkTask 2 "Memo" "Weekly memo" "2024-03-20" "In Progress".
Definition tasks2 : Sys task_service.TaskService :=
  mkSys (task_service.mkTaskService "tasks.json" [report; memo]) w_empty.
Definition tasks0 : Sys task_service.TaskService :=
  mkSys (task_service.mkTaskService "tasks.json" []) w_empty.
Definition tasks_readonly : Sys task_service.TaskService :=
  mkSys (task_service.mkTaskService "tasks.json" []) w_readonly.

(** Sessions of the worked examples. *)
Definition create_delete_create : list task_session.call :=
  [ task_session.create_task "Report" "Quarterly numbers" "2024-03-25";
    task_session.delete_task 1;
    task_session.create_task "Memo" "Weekly memo" "2024-03-20" ].
Definition create_update_create : list task_session.call :=
  [ task_session.create_task "Report" "Quarterly numbers" "2024-03-25";
    task_session.update_task 1 "Report" "Yearly numbers" "2024-12-31" "Completed";
    task_session.create_task "Memo" "Weekly memo" "2024-03-20" ].
Definition open_two_accounts : list bank_session.call :=
  [ bank_session.create_account "Alice" (qc 100);
    bank_session.deposit "ACC0001" (qc 50);
    bank_session.withdraw "ACC0001" (qc 200);
    bank_session.create_account "Bob" (qc 0);
    bank_session.transfer "ACC0001" "ACC0002" (qc 50) ].
Definition bank_empty : Sys bank_service.BankService :=
  mkSys (bank_service.mkBankService "accounts.json" ∅) w_empty.
(** A bank loaded from a file whose only account is numbered ACC0002. *)
Definition bank_renumbered : Sys bank_service.BankService :=
  mkSys (bank_service.mkBankService "accounts.json" {[ "ACC0002" := bob 0 ]})
        w_empty.

(** ** Vocabulary of the further properties *)

(** The world after [save_accounts] wrote the accounts of [b], and the
    outcome of a bank method once its mutation is in [b]: what
    [save_accounts] raises, or the return after the log record [r]. *)
Definition bank_saved (b : bank_service.BankService) (w : World) : World :=
  logged (mkLogRecord INFO [Lit "Accounts successfully saved"] false)
    (written (bank_service.data_source b)
       (accounts_document (bank_service.accounts b)) w).
Definition after_save {A} (x : A) (r : LogRecord)
    (b : bank_service.BankService) (w : World)
  : result A * Sys bank_service.BankService :=
  let path := bank_service.data_source b in
  if bool_decide (path ∈ unwritable w)
  then
    (Raise (OSError path),
     mkSys b
       (logged (mkLogRecord ERROR
                  [Lit "Error saving account data: "; Exc (OSError path)] true)
          w))
  else (Return x, mkSys b (logged r (bank_saved b w))).

(** The world after [save_tasks] ran on the tasks [ts]: the file is
    written, or the failure is logged. *)
Definition tasks_saved (path : string) (ts : list task.Task) (w : World) : World :=
  if bool_decide (path ∈ unwritable w)
  then logged (mkLogRecord ERROR
                 [Lit "Error saving tasks to file: "; Exc (OSError path)] true) w
  else logged (mkLogRecord INFO [Lit "Tasks saved to file."] false)
         (written path (tasks_document ts) w).

(** The in-memory changes a call of the bank can make, one mutation at
    a time. *)
Inductive bank_step (b : bank_service.BankService)
  : bank_service.BankService → Prop :=
| step_credit n a acc :
    bank_service.accounts b !! n = Some acc → (0 < a)%Qc →
    bank_step b (bank_service.mkBankService (bank_service.data_source b)
                   (<[n := credited a acc]> (bank_service.accounts b)))
| step_debit n a acc :
    bank_service.accounts b !! n = Some acc →
    (0 < a)%Qc → (a <= account.balance acc)%Qc →
    bank_step b (bank_service.mkBankService (bank_service.data_source b)
                   (<[n := debited a acc]> (bank_service.accounts b)))
| step_create h bal :
    ¬ (bal < 0)%Qc →
    let n := number (size (bank_service.accounts b) + 1) in
    bank_step b (bank_service.mkBankService (bank_service.data_source b)
                   (<[n := account.mkAccount n h bal]> (bank_service.accounts b))).

(** Every account is stored under its own number; no balance is
    negative; the file holds the accounts of the service. *)
Definition keyed (accs : gmap string account.Account) : Prop :=
  ∀ k acc, accs !! k = Some acc → account.account_number acc = k.
Definition solvent (accs : gmap string account.Account) : Prop :=
  ∀ k acc, accs !! k = Some acc → (0 <= account.balance acc)%Qc.
Definition bank_in_sync (s : Sys bank_service.BankService) : Prop :=
  files (world s) !! bank_service.data_source (self s)
    = Some (accounts_document (bank_service.accounts (self s))).
Definition tasks_in_sync (s : Sys task_service.TaskService) : Prop :=
  files (world s) !! task_service.data_source (self s)
    = Some (tasks_document (task_service.tasks (self s))).

(** A caller of one [BankAccount]. *)
Module bank_account_session.
Import bank_account.

Inductive call :=
| deposit (amount : Z)
| withdraw (amount : Z)
| get_balance.

Definition perform (c : call) : M BankAccount Z :=
  match c with
  | deposit amount => bank_account.deposit amount
  | withdraw amount => bank_account.withdraw amount
  | get_balance => bank_account.get_balance
  end.

Fixpoint run (cs : list call) (acc : BankAccount)
  : list (result Z) * BankAccount :=
  match cs with
  | [] => ([], acc)
  | c :: cs' =>
      let '(r, acc') := perform c acc in
      let '(rs, acc'') := run cs' acc' in
      (r :: rs, acc'')
  end.

(** The calls that change the account: a deposit of a positive amount,
    a withdrawal of a positive amount within the balance. *)
Definition accepted (c : call) (acc : BankAccount) : bool :=
  match c with
  | deposit amount => bool_decide (amount > 0)%Z
  | withdraw amount =>
      bool_decide (0 < amount)%Z && bool_decide (amount <= balance acc)%Z
  | get_balance => false
  end.

(** The line that an accepted call appends to the transactions, and
    what it adds to the balance. *)
Definition line (c : call) : string :=
  match c with
  | deposit amount => "Deposited " +:+ str amount
  | withdraw amount => "Withdrew " +:+ str amount
  | get_balance => ""
  end.
Definition effect (c : call) : Z :=
  match c with
  | deposit amount => amount
  | withdraw amount => - amount
  | get_balance => 0
  end.

(** The calls of a session that were accepted, in order. *)
Fixpoint accepted_calls (cs : list call) (acc : BankAccount) : list call :=
  match cs with
  | [] => []
  | c :: cs' =>
      let rest := accepted_calls cs' (perform c acc).2 in
      if accepted c acc then c :: rest else rest
  end.

End bank_account_session.

(** * Properties *)

(** Unfolds the monad down to functions on states. *)
Ltac run_monad :=
  cbv beta delta
    [bind ret raise get put try_except dispatch get_self set_self emit
     logger_info logger_warning logger_error logger_exception
     open_r_json_load open_w json_dump subscript as_int as_str as_float] iota;
  cbn [fst snd self world files unwritable log isinstance].

(** ** The Account model *)

Section account_model.
Import account.

(** C1. An account with balance [b] that withdraws [a] with [0 < a <= b]
    ends with balance [b - a]; when [a > b] or [a <= 0] the call raises
    [ValueError] and the account is as it was. *)
Theorem account_withdraw_spec (acc : Account) (a : Qc) :
  ((0 < a)%Qc → (a <= balance acc)%Qc →
   withdraw a acc =
     (Return (), mkAccount (account_number acc) (account_holder acc)
                   (balance acc - a)%Qc))
  ∧ ((balance acc < a)%Qc ∨ (a <= 0)%Qc →
     ∃ msg, withdraw a acc = (Raise (ValueError msg), acc)).
Proof.
  unfold withdraw. run_monad. split.
  - intros Hpos Hle.
    rewrite bool_decide_eq_false_2 by (by apply Qclt_not_le).
    by rewrite bool_decide_eq_false_2 by (by apply Qcle_not_lt).
  - intros H. destruct (decide (a <= 0)%Qc) as [Hn|Hn].
    + rewrite bool_decide_eq_true_2 by done. by eexists.
    + rewrite bool_decide_eq_false_2 by done.
      destruct H as [H|H]; [|done].
      rewrite bool_decide_eq_true_2 by done. by eexists.
Qed.

Lemma account_withdraw_spec_witness :
  withdraw (qc 50) (alice 150)
    = (Return (), mkAccount "ACC0001" "Alice" (qc 150 - qc 50)%Qc)
  ∧ ∃ msg, withdraw (qc 200) (alice 150) = (Raise (ValueError msg), alice 150).
Proof.
  split.
  - apply (proj1 (account_withdraw_spec (alice 150) (qc 50))); by vm_compute.
  - apply (proj2 (account_withdraw_spec (alice 150) (qc 200))).
    left. by vm_compute.
Defined.

(** C2. An account with balance [b] that deposits [a > 0] ends with
    balance [b + a]; when [a <= 0] the call raises [ValueError] and the
    account is as it was. *)
Theorem account_deposit_spec (acc : Account) (a : Qc) :
  ((0 < a)%Qc →
   deposit a acc =
     (Return (), mkAccount (account_number acc) (account_holder acc)
                   (balance acc + a)%Qc))
  ∧ ((a <= 0)%Qc →
     ∃ msg, deposit a acc = (Raise (ValueError msg), acc)).
Proof.
  unfold deposit. run_monad. split.
  - intros Hpos. by rewrite bool_decide_eq_false_2 by (by apply Qclt_not_le).
  - intros Hle. rewrite bool_decide_eq_true_2 by done. by eexists.
Qed.

Lemma account_deposit_spec_witness :
  deposit (qc 50) (alice 100)
    = (Return (), mkAccount "ACC0001" "Alice" (qc 100 + qc 50)%Qc)
  ∧ ∃ msg, deposit (qc (-50)) (alice 100) = (Raise (ValueError msg), alice 100).
Proof.
  split.
  - apply (proj1 (account_deposit_spec (alice 100) (qc 50))); by vm_compute.
  - apply (proj2 (account_deposit_spec (alice 100) (qc (-50)))). by vm_compute.
Defined.

End account_model.

(** ** Serialization *)

(** C7. Building an entity back from its own dictionary gives the
      entity, field for field, for tasks and for accounts. *)
Theorem from_dict_to_dict :
    (∀ (St : Type) (t : task.Task) (s : St),
       task.from_dict (PDict (task.to_dict t)) s = (Return t, s))
    ∧ (∀ (St : Type) (a : account.Account) (s : St),
         account.from_dict (PDict (account.to_dict a)) s = (Return a, s)).
Proof.
    split.
    - intros St [i t d dd st] s.
      unfold task.from_dict, task.to_dict. run_monad. cbn.
      by simplify_map_eq.
    - intros St [n h b] s.
      unfold account.from_dict, account.to_dict. run_monad. cbn.
      by simplify_map_eq.
Qed.

(** ** The BankAccount of pytest-1 *)

Section bank_account_model.
Import bank_account.

(** C10. [deposit] and [withdraw] always return, and return the balance
    the account then has; a deposit that is not positive, and a
    withdrawal that is not positive or exceeds the balance, leave the
    balance and the transactions as they were. *)
Theorem bank_account_never_raises (acc : BankAccount) (amount : Z) :
  (∃ acc', deposit amount acc = (Return (balance acc'), acc')
           ∧ ((amount <= 0)%Z → acc' = acc))
  ∧ (∃ acc', withdraw amount acc = (Return (balance acc'), acc')
             ∧ ((amount <= 0)%Z ∨ (balance acc < amount)%Z → acc' = acc)).
Proof.
  unfold deposit, withdraw. run_monad. split.
  - case_bool_decide; eexists; (split; [reflexivity|]); [lia|done].
  - do 2 case_bool_decide; cbn [andb]; eexists;
      (split; [reflexivity|]); first [lia|done].
Qed.

Lemma bank_account_never_raises_witness :
  (∃ acc', deposit (-50) (__init__ 100) = (Return (balance acc'), acc')
           ∧ acc' = __init__ 100)
  ∧ (∃ acc', withdraw 150 (__init__ 100) = (Return (balance acc'), acc')
             ∧ acc' = __init__ 100).
Proof.
  destruct (bank_account_never_raises (__init__ 100) (-50)) as [[a1 [E1 H1]] _].
  destruct (bank_account_never_raises (__init__ 100) 150) as [_ [a2 [E2 H2]]].
  split.
  - exists a1. split; [exact E1 | apply H1; lia].
  - exists a2. split; [exact E2 | apply H2; right; cbn; lia].
Defined.

End bank_account_model.

(** ** The task service *)

Section task_service_model.
Import task task_service.
Implicit Types (s : Sys TaskService) (i : Z) (t : Task) (ts : list Task).

Lemma written_twice path f g w :
  written path g (written path f w) = written path g w.
Proof. unfold written; cbn. by rewrite insert_insert_eq. Qed.

(** [save_tasks] always returns: a failed write is logged and dropped. *)
Lemma save_tasks_run s :
  save_tasks s =
    (Return (),
     mkSys (self s)
       (if bool_decide (data_source (self s) ∈ unwritable (world s))
        then logged (mkLogRecord ERROR
                       [Lit "Error saving tasks to file: ";
                        Exc (OSError (data_source (self s)))] true) (world s)
        else logged (mkLogRecord INFO [Lit "Tasks saved to file."] false)
               (written (data_source (self s))
                  (tasks_document (tasks (self s))) (world s)))).
Proof.
  unfold save_tasks. run_monad. case_bool_decide; [done|].
  cbn. by rewrite written_twice.
Qed.

Lemma find_task_split i ts t :
  find_task i ts = Some t →
  ∃ l1 l2, ts = l1 ++ t :: l2 ∧ Forall (λ u, task_id u ≠ i) l1
           ∧ task_id t = i ∧ remove i ts = l1 ++ l2.
Proof.
  induction ts as [|u ts IH]; [done|]. cbn. case_bool_decide as Hu.
  - intros [= ->]. by exists [], ts.
  - intros (l1 & l2 & -> & Hl1 & Ht & Hr)%IH.
    exists (u :: l1), l2. rewrite Hr. by repeat constructor.
Qed.

Lemma task_id_assign i (f : Task → Task) ts :
  (∀ t, task_id (f t) = task_id t) →
  task_id <$> assign i f ts = task_id <$> ts.
Proof.
  intros Hf. induction ts as [|u ts IH]; [done|]. cbn.
  case_bool_decide; cbn; by rewrite ?Hf, ?IH.
Qed.

(** C8. When a task with the id is in the list, [delete_task] returns
    [True], the first such task is gone from the list and [save_tasks]
    runs on the list that is left (where the path can be written, the
    file then holds that list); when there is none, it returns [False]
    and list and files are as they were. *)
Theorem delete_task_spec s i :
  (∀ t, find_task i (tasks (self s)) = Some t →
     ∃ l1 l2,
       tasks (self s) = l1 ++ t :: l2
       ∧ Forall (λ u, task_id u ≠ i) l1
       ∧ let left := mkTaskService (data_source (self s)) (l1 ++ l2) in
         let flushed := world (save_tasks (mkSys left (world s))).2 in
         delete_task i s =
           (Return true,
            mkSys left
              (logged (mkLogRecord INFO [Lit "Task deleted: "; Lit (title t)] false)
                 flushed))
         ∧ (data_source (self s) ∉ unwritable (world s) →
            files flushed !! data_source (self s) = Some (tasks_document (l1 ++ l2))))
  ∧ (find_task i (tasks (self s)) = None →
     ∃ msg, delete_task i s =
       (Return false,
        mkSys (self s) (logged (mkLogRecord WARNING msg false) (world s)))).
Proof.
  split.
  - intros t Ht. destruct (find_task_split _ _ _ Ht) as (l1 & l2 & Hts & Hl1 & _ & Hr).
    exists l1, l2. split; [done|]. split; [done|]. cbn zeta. split.
    + unfold delete_task, get_task, set_tasks. run_monad. rewrite Ht. run_monad.
      rewrite Hr, !save_tasks_run. by destruct s.
    + intros Hw. rewrite save_tasks_run. cbn.
      rewrite bool_decide_eq_false_2 by done. cbn. by rewrite lookup_insert_eq.
  - intros Hn. unfold delete_task, get_task. run_monad. rewrite Hn. run_monad.
    destruct s. by eexists.
Qed.

Lemma create_task_run s ti d dd :
  create_task ti d dd s =
    if all [ti; d; dd]
    then
      let new_task :=
        mkTask (max (task_id <$> tasks (self s)) 0 + 1) ti d dd "To Do" in
      let grown := mkTaskService (data_source (self s)) (tasks (self s) ++ [new_task]) in
      (Return new_task,
       mkSys grown
         (logged (mkLogRecord INFO [Lit "Task created: "; Lit ti] false)
            (world (save_tasks (mkSys grown (world s))).2)))
    else
      let ve := ValueError "All fields (title, description, due_date) are required." in
      (Raise ve,
       mkSys (self s)
         (logged (mkLogRecord ERROR [Lit "Error creating task: "; Exc ve] false)
            (world s))).
Proof.
  unfold create_task, set_tasks. destruct (all [ti; d; dd]); cbn [negb]; run_monad.
  - by rewrite !save_tasks_run.
  - by destruct s.
Qed.

Lemma update_task_run s i ti d dd st :
  update_task i ti d dd st s =
    match find_task i (tasks (self s)) with
    | Some t =>
        if all [ti; d; dd; st]
        then
          let assignments u := mkTask (task_id u) ti d dd st in
          let changed :=
            mkTaskService (data_source (self s)) (assign i assignments (tasks (self s))) in
          (Return (Some (assignments t)),
           mkSys changed
             (logged (mkLogRecord INFO [Lit "Task updated: "; Lit ti] false)
                (world (save_tasks (mkSys changed (world s))).2)))
        else
          let ve := ValueError
            "All fields (title, description, due_date, status) are required for update." in
          (Raise ve,
           mkSys (self s)
             (logged (mkLogRecord ERROR [Lit "Error updating task: "; Exc ve] false)
                (world s)))
    | None =>
        (Return None,
         mkSys (self s)
           (logged (mkLogRecord WARNING
                      [Lit "Task with ID "; Int i; Lit " not found."] false)
              (world s)))
    end.
Proof.
  unfold update_task, get_task, set_tasks. run_monad.
  destruct (find_task i (tasks (self s))) as [t|]; run_monad; [|by destruct s].
  destruct (all [ti; d; dd; st]); cbn [negb]; run_monad.
  - by rewrite !save_tasks_run.
  - by destruct s.
Qed.

Lemma find_task_id i ts t : find_task i ts = Some t → task_id t = i.
Proof. by intros (? & ? & ? & ? & ? & ?)%find_task_split. Qed.

Lemma foldl_max_ge (l : list Z) (x : Z) : (x <= foldl Z.max x l)%Z.
Proof.
  revert x. induction l as [|y l IH]; intros x; cbn; [lia|].
  specialize (IH (Z.max x y)). lia.
Qed.

Lemma foldl_max_elem (l : list Z) (x y : Z) : y ∈ l → (y <= foldl Z.max x l)%Z.
Proof.
  revert x. induction l as [|z l IH]; intros x; [by intros ?%elem_of_nil|].
  intros [->|Hy]%elem_of_cons; cbn.
  - pose proof (foldl_max_ge l (Z.max x z)). lia.
  - by apply IH.
Qed.

(** Every element of a list is at most its [max]. *)
Lemma max_ge (l : list Z) (d y : Z) : y ∈ l → (y <= max l d)%Z.
Proof.
  destruct l as [|x l]; [by intros ?%elem_of_nil|].
  intros [->|Hy]%elem_of_cons; cbn.
  - apply foldl_max_ge.
  - by apply foldl_max_elem.
Qed.

(** After an element above the maximum is appended, it is the maximum. *)
Lemma max_snoc (l : list Z) (d x : Z) :
  (max l d < x)%Z → max (l ++ [x]) d = x.
Proof.
  destruct l as [|y l]; [done|]. cbn. rewrite foldl_app. cbn. lia.
Qed.

(** [load_tasks] on a missing file and on a file that is not JSON. *)
Lemma load_tasks_missing s :
  files (world s) !! data_source (self s) = None →
  load_tasks s =
    (Return (),
     mkSys (mkTaskService (data_source (self s)) [])
       (logged (mkLogRecord WARNING
                  [Lit "Data source file '"; Lit (data_source (self s));
                   Lit "' not found.  Starting with empty task list."] false)
          (world s))).
Proof. intros H. unfold load_tasks, set_tasks. run_monad. by rewrite H. Qed.

Lemma load_tasks_malformed s text :
  files (world s) !! data_source (self s) = Some (Text text) →
  load_tasks s =
    (Return (),
     mkSys (mkTaskService (data_source (self s)) [])
       (logged (mkLogRecord ERROR
                  [Lit "Error decoding JSON in '"; Lit (data_source (self s));
                   Lit "'. Starting with empty task list."] false)
          (world s))).
Proof. intros H. unfold load_tasks, set_tasks. run_monad. by rewrite H. Qed.

End task_service_model.

(** ** The bank service *)

Section bank_service_model.
Import account bank_service.
Implicit Types (s : Sys BankService) (acc : Account) (a : Qc).

Lemma deposit_run a acc :
  account.deposit a acc =
    if bool_decide (a <= 0)%Qc
    then (Raise (ValueError "Deposit amount must be positive."), acc)
    else (Return (), credited a acc).
Proof. unfold account.deposit. run_monad. by case_bool_decide. Qed.

Lemma withdraw_run a acc :
  account.withdraw a acc =
    if bool_decide (a <= 0)%Qc
    then (Raise (ValueError "Withdrawal amount must be positive."), acc)
    else if bool_decide (balance acc < a)%Qc
    then (Raise (ValueError "Insufficient balance."), acc)
    else (Return (), debited a acc).
Proof. unfold account.withdraw. run_monad. by repeat case_bool_decide. Qed.

(** [save_accounts] writes the whole collection, or logs and raises
    again what [open] raised. *)
Lemma save_accounts_run s :
  save_accounts s =
    if bool_decide (data_source (self s) ∈ unwritable (world s))
    then
      (Raise (OSError (data_source (self s))),
       mkSys (self s)
         (logged (mkLogRecord ERROR
                    [Lit "Error saving account data: ";
                     Exc (OSError (data_source (self s)))] true) (world s)))
    else
      (Return (),
       mkSys (self s)
         (logged (mkLogRecord INFO [Lit "Accounts successfully saved"] false)
            (written (data_source (self s))
               (accounts_document (accounts (self s))) (world s)))).
Proof.
  unfold save_accounts. run_monad. case_bool_decide; [done|].
  cbn. by rewrite written_twice.
Qed.

Lemma method_run {A} (key : string) (m : M Account A) s acc :
  accounts (self s) !! key = Some acc →
  method key m s =
    ((m acc).1,
     mkSys (mkBankService (data_source (self s))
              (<[key := (m acc).2]> (accounts (self s)))) (world s)).
Proof.
  intros H. unfold method, accounts_setitem. run_monad. rewrite H.
  destruct (m acc) as [[x|e] acc']; by run_monad.
Qed.

(** [transfer] on two accounts that exist, case by case.  The object
    credited is the one bound to [t] after the debit, which is the
    debited account when [t] is [f]. *)
Lemma transfer_run s (f t : string) a (af at_ : Account) :
  accounts (self s) !! f = Some af →
  accounts (self s) !! t = Some at_ →
  transfer f t a s =
    let failed msg :=
      (Raise (ValueError msg),
       mkSys (self s)
         (logged (mkLogRecord ERROR
                    [Lit "Transfer failed: "; Exc (ValueError msg)] false)
            (world s))) in
    if bool_decide (a <= 0)%Qc then failed "Withdrawal amount must be positive."
    else if bool_decide (balance af < a)%Qc then failed "Insufficient balance."
    else
      transferred f t a
        (mkBankService (data_source (self s))
           (<[t := credited a (if bool_decide (f = t) then debited a af else at_)]>
              (<[f := debited a af]> (accounts (self s)))))
        (world s).
Proof.
  intros Hf Ht. unfold transfer, get_account. run_monad. rewrite Hf, Ht.
  cbn [not_ orb]. run_monad. rewrite (method_run _ _ _ _ Hf), withdraw_run.
  assert (<[f := af]> (accounts (self s)) = accounts (self s)) as Hid
    by by apply insert_id.
  case_bool_decide as Hle.
  { cbn. rewrite Hid. by destruct s as [[ds accs] w]. }
  case_bool_decide as Hlt.
  { cbn. rewrite Hid. by destruct s as [[ds accs] w]. }
  cbn [fst snd].
  assert (<[f := debited a af]> (accounts (self s)) !! t
          = Some (if bool_decide (f = t) then debited a af else at_)) as Hto.
  { case_bool_decide as Hft.
    - subst t. by rewrite lookup_insert_eq.
    - by rewrite lookup_insert_ne. }
  erewrite method_run by exact Hto. rewrite deposit_run.
  rewrite bool_decide_eq_false_2 by done. cbn [fst snd].
  rewrite save_accounts_run. unfold transferred. cbn.
  by destruct (bool_decide (_ ∈ unwritable _)).
Qed.

(** C3 (amended). With both accounts present: when the debit fails
    validation, [transfer] raises that [ValueError], logs it, and leaves
    the accounts and the files as they were; when the debit goes
    through and the two accounts are distinct, the source is debited and
    the destination credited by the amount, and [save_accounts] runs on
    the result.  A transfer from an account to itself debits and then
    credits the one account. *)
Theorem transfer_spec s (f t : string) a (af at_ : Account) :
  accounts (self s) !! f = Some af →
  accounts (self s) !! t = Some at_ →
  ((a <= 0)%Qc ∨ (balance af < a)%Qc →
   ∃ msg,
     transfer f t a s =
       (Raise (ValueError msg),
        mkSys (self s)
          (logged (mkLogRecord ERROR
                     [Lit "Transfer failed: "; Exc (ValueError msg)] false)
             (world s))))
  ∧ ((0 < a)%Qc → (a <= balance af)%Qc → f ≠ t →
     transfer f t a s =
       transferred f t a
         (mkBankService (data_source (self s))
            (<[t := credited a at_]> (<[f := debited a af]> (accounts (self s)))))
         (world s))
  ∧ ((0 < a)%Qc → (a <= balance af)%Qc → f = t →
     transfer f t a s =
       transferred f t a
         (mkBankService (data_source (self s))
            (<[f := credited a (debited a af)]> (accounts (self s))))
         (world s)).
Proof.
  intros Hf Ht. rewrite (transfer_run _ _ _ _ _ _ Hf Ht). cbn zeta.
  split; [|split].
  - intros Hbad. case_bool_decide; [by eexists|].
    destruct Hbad as [?|Hlt]; [done|].
    rewrite bool_decide_eq_true_2 by done. by eexists.
  - intros Hpos Hle Hne.
    rewrite bool_decide_eq_false_2 by (by apply Qclt_not_le).
    rewrite bool_decide_eq_false_2 by (by apply Qcle_not_lt).
    by rewrite (bool_decide_eq_false_2 (f = t)).
  - intros Hpos Hle <-.
    rewrite bool_decide_eq_false_2 by (by apply Qclt_not_le).
    rewrite bool_decide_eq_false_2 by (by apply Qcle_not_lt).
    rewrite (bool_decide_eq_true_2 (f = f)) by done.
    by rewrite insert_insert_eq.
Qed.

Lemma transfer_spec_witness :
  (∃ msg,
     transfer "ACC0001" "ACC0002" (qc 200) bank0 =
       (Raise (ValueError msg),
        mkSys (self bank0)
          (logged (mkLogRecord ERROR
                     [Lit "Transfer failed: "; Exc (ValueError msg)] false)
             (world bank0))))
  ∧ transfer "ACC0001" "ACC0002" (qc 50) bank0 =
      transferred "ACC0001" "ACC0002" (qc 50)
        (mkBankService "accounts.json"
           (<["ACC0002" := credited (qc 50) (bob 0)]>
              (<["ACC0001" := debited (qc 50) (alice 150)]> (accounts (self bank0)))))
        w_empty
  ∧ transfer "ACC0001" "ACC0001" (qc 50) bank0 =
      transferred "ACC0001" "ACC0001" (qc 50)
        (mkBankService "accounts.json"
           (<["ACC0001" := credited (qc 50) (debited (qc 50) (alice 150))]>
              (accounts (self bank0))))
        w_empty.
Proof.
  split; [|split].
  - apply (proj1 (transfer_spec bank0 "ACC0001" "ACC0002" (qc 200)
                    (alice 150) (bob 0) eq_refl eq_refl)).
    right. by vm_compute.
  - apply (proj1 (proj2 (transfer_spec bank0 "ACC0001" "ACC0002" (qc 50)
                           (alice 150) (bob 0) eq_refl eq_refl)));
      by vm_compute.
  - apply (proj2 (proj2 (transfer_spec bank0 "ACC0001" "ACC0001" (qc 50)
                           (alice 150) (alice 150) eq_refl eq_refl)));
      by vm_compute.
Defined.

(** The scenario of the specification: Alice at 150 transfers 50 to Bob
    at 0. *)
Example transfer_alice_bob :
  ∃ s', transfer "ACC0001" "ACC0002" (qc 50) bank0 = (Return (), s')
        ∧ accounts (self s') = {[ "ACC0001" := alice 100; "ACC0002" := bob 50 ]}
        ∧ files (world s') !! "accounts.json"
            = Some (accounts_document (accounts (self s'))).
Proof. eexists. split; [reflexivity|]. split; by vm_compute. Qed.

(** C3 as stated fails when source and destination are the same
    account: the debit goes through, yet the balance ends where it
    began, neither lower nor higher by the amount. *)
Lemma transfer_to_self_counterexample :
  ∃ s', transfer "ACC0001" "ACC0001" (qc 50) bank0 = (Return (), s')
        ∧ balance <$> accounts (self s') !! "ACC0001" = Some (qc 150)
        ∧ qc 150 ≠ (qc 150 - qc 50)%Qc
        ∧ qc 150 ≠ (qc 150 + qc 50)%Qc.
Proof.
  eexists. split; [reflexivity|]. split; [by vm_compute|].
  split; intros [=].
Qed.

End bank_service_model.

(** ** Relations that a method keeps *)

Section keeps.
Context {T : Type} (R : relation T) `{!PreOrder R}.

Lemma keeps_ret {A} (a : A) : keeps R (ret a).
Proof. by intros s. Qed.

Lemma keeps_raise {A} (e : exn) : keeps R (@raise _ A e).
Proof. by intros s. Qed.

Lemma keeps_bind {A B} (m : M (Sys T) A) (k : A → M (Sys T) B) :
  keeps R m → (∀ a, keeps R (k a)) → keeps R (bind m k).
Proof.
  intros Hm Hk s. unfold bind. specialize (Hm s).
  destruct (m s) as [[a|e] s']; [|done].
  by etrans; [|apply Hk].
Qed.

Lemma keeps_dispatch {A} (e : exn) (hs : list (exn_class * (exn → M (Sys T) A))) :
  Forall (λ ch, ∀ e, keeps R (ch.2 e)) hs → keeps R (dispatch e hs).
Proof.
  induction 1 as [|[c h] hs Hh _ IH]; cbn; [apply keeps_raise|].
  destruct (isinstance e c); [apply Hh | apply IH].
Qed.

Lemma keeps_try_except {A} (m : M (Sys T) A) hs :
  keeps R m → Forall (λ ch, ∀ e, keeps R (ch.2 e)) hs → keeps R (try_except m hs).
Proof.
  intros Hm Hhs s. unfold try_except. specialize (Hm s).
  destruct (m s) as [[a|e] s']; [done|].
  by etrans; [|apply keeps_dispatch].
Qed.

Lemma keeps_get_self : keeps R get_self.
Proof. by intros s. Qed.

Lemma keeps_emit r : keeps R (emit r).
Proof. by intros s. Qed.

Lemma keeps_open_r_json_load path : keeps R (open_r_json_load path).
Proof.
  intros s. unfold open_r_json_load.
  by destruct (files (world s) !! path) as [[]|].
Qed.

Lemma keeps_open_w path : keeps R (open_w path).
Proof. intros s. unfold open_w. by case_bool_decide. Qed.

Lemma keeps_json_dump data path : keeps R (json_dump data path).
Proof. by intros s. Qed.

Lemma keeps_if {A} (b : bool) (m1 m2 : M (Sys T) A) :
  keeps R m1 → keeps R m2 → keeps R (if b then m1 else m2).
Proof. by destruct b. Qed.

End keeps.

Create HintDb keeps discriminated.
#[local] Hint Resolve keeps_ret keeps_raise keeps_bind keeps_try_except
  keeps_get_self keeps_emit keeps_open_r_json_load keeps_open_w keeps_json_dump
  keeps_if : keeps.
#[local] Hint Extern 0 (PreOrder _) => typeclasses eauto : keeps.
#[local] Hint Extern 1 (Forall _ _) => (repeat constructor; cbn; intros) : keeps.
#[local] Hint Extern 1 (keeps _ (logger_info _)) => apply keeps_emit : keeps.
#[local] Hint Extern 1 (keeps _ (logger_warning _)) => apply keeps_emit : keeps.
#[local] Hint Extern 1 (keeps _ (logger_error _)) => apply keeps_emit : keeps.
#[local] Hint Extern 1 (keeps _ (logger_exception _)) => apply keeps_emit : keeps.

Section bank_identities.
Import account bank_service.
Implicit Types (s : Sys BankService) (acc : Account) (a : Qc).

#[local] Instance same_identities_preorder : PreOrder same_identities.
Proof.
  split.
  - intros b. split; [done|]. intros k. by destruct (accounts b !! k).
  - intros b1 b2 b3 [Hd1 H1] [Hd2 H2]. split; [congruence|]. intros k.
    specialize (H1 k). specialize (H2 k).
    destruct (accounts b1 !! k), (accounts b2 !! k), (accounts b3 !! k);
      try done. destruct H1, H2. split; congruence.
Qed.

Lemma keeps_save_accounts : keeps same_identities save_accounts.
Proof. intros s. rewrite save_accounts_run. by case_bool_decide. Qed.

(** A method that keeps number and holder of the object keeps the
    identities of the bank. *)
Lemma keeps_method {A} (key : string) (m : M Account A) :
  (∀ acc, account_number (m acc).2 = account_number acc
          ∧ account_holder (m acc).2 = account_holder acc) →
  keeps same_identities (method key m).
Proof.
  intros Hm s. destruct (accounts (self s) !! key) as [acc|] eqn:Hk.
  - rewrite (method_run _ _ _ _ Hk). cbn. split; [done|]. intros k.
    destruct (decide (k = key)) as [->|Hne].
    + cbn. rewrite Hk, lookup_insert_eq. apply Hm.
    + cbn. rewrite lookup_insert_ne by done. by destruct (accounts (self s) !! k).
  - unfold method. run_monad. rewrite Hk. reflexivity.
Qed.

Lemma account_methods_keep_identity a acc :
  (account_number (account.deposit a acc).2 = account_number acc
   ∧ account_holder (account.deposit a acc).2 = account_holder acc)
  ∧ (account_number (account.withdraw a acc).2 = account_number acc
     ∧ account_holder (account.withdraw a acc).2 = account_holder acc).
Proof.
  rewrite deposit_run, withdraw_run. by repeat case_bool_decide.
Qed.

Lemma keeps_deposit n a : keeps same_identities (bank_service.deposit n a).
Proof.
  unfold bank_service.deposit, get_account.
  pose proof keeps_save_accounts.
  assert (keeps same_identities (method n (account.deposit a)))
    by (apply keeps_method; intros; apply account_methods_keep_identity).
  eauto 10 with keeps.
Qed.

Lemma keeps_withdraw n a : keeps same_identities (bank_service.withdraw n a).
Proof.
  unfold bank_service.withdraw, get_account.
  pose proof keeps_save_accounts.
  assert (keeps same_identities (method n (account.withdraw a)))
    by (apply keeps_method; intros; apply account_methods_keep_identity).
  eauto 10 with keeps.
Qed.

Lemma keeps_transfer f t a : keeps same_identities (bank_service.transfer f t a).
Proof.
  unfold bank_service.transfer, get_account.
  pose proof keeps_save_accounts.
  assert (∀ n, keeps same_identities (method n (account.withdraw a)))
    by (intros; apply keeps_method; intros; apply account_methods_keep_identity).
  assert (∀ n, keeps same_identities (method n (account.deposit a)))
    by (intros; apply keeps_method; intros; apply account_methods_keep_identity).
  eauto 20 with keeps.
Qed.

End bank_identities.

(** ** Identity of stored entities *)

(** C9. [update_task] leaves the ids of the list as they were, position
    by position: the list is unchanged, or the first task with the id
    has new title, description, due date and status and its old
    [task_id].  [Account.deposit] and [Account.withdraw] leave account
    number and holder as they were, and so do the [deposit], [withdraw]
    and [transfer] of the bank for every account it holds. *)
Theorem identity_is_kept :
  (∀ (s : Sys task_service.TaskService) i ti d dd st,
     let ts := task_service.tasks (self s) in
     let ts' := task_service.tasks (self (task_service.update_task i ti d dd st s).2) in
     task.task_id <$> ts' = task.task_id <$> ts
     ∧ (ts' = ts
        ∨ ts' = task_service.assign i (λ u, task.mkTask (task.task_id u) ti d dd st) ts))
  ∧ (∀ a acc,
       (account.account_number (account.deposit a acc).2 = account.account_number acc
        ∧ account.account_holder (account.deposit a acc).2 = account.account_holder acc)
       ∧ (account.account_number (account.withdraw a acc).2 = account.account_number acc
          ∧ account.account_holder (account.withdraw a acc).2 = account.account_holder acc))
  ∧ (∀ n f t a,
       keeps same_identities (bank_service.deposit n a)
       ∧ keeps same_identities (bank_service.withdraw n a)
       ∧ keeps same_identities (bank_service.transfer f t a)).
Proof.
  split; [|split].
  - intros s i ti d dd st. cbn zeta. rewrite update_task_run.
    destruct (task_service.find_task i _); [|by split; [|left]].
    destruct (task_service.all _); [|by split; [|left]].
    cbn. split; [|by right]. by apply task_id_assign.
  - apply account_methods_keep_identity.
  - intros n f t a. split; [|split].
    + apply keeps_deposit.
    + apply keeps_withdraw.
    + apply keeps_transfer.
Qed.

(** ** Loading *)

Section loading.
Import bank_service.

Lemma load_accounts_missing (s : Sys BankService) :
  files (world s) !! data_source (self s) = None →
  load_accounts s =
    (Return (),
     mkSys (mkBankService (data_source (self s)) ∅)
       (logged (mkLogRecord WARNING
                  [Lit "Data source file '"; Lit (data_source (self s));
                   Lit "' not found.  Starting with empty account list."] false)
          (world s))).
Proof. intros H. unfold load_accounts, set_accounts. run_monad. by rewrite H. Qed.

Lemma load_accounts_malformed (s : Sys BankService) text :
  files (world s) !! data_source (self s) = Some (Text text) →
  load_accounts s =
    (Return (),
     mkSys (mkBankService (data_source (self s)) ∅)
       (logged (mkLogRecord ERROR
                  [Lit "Error decoding JSON in '"; Lit (data_source (self s));
                   Lit "'. Starting with empty account list."] false)
          (world s))).
Proof. intros H. unfold load_accounts, set_accounts. run_monad. by rewrite H. Qed.

End loading.

(** C4. [load_accounts] and [load_tasks] return without raising when
    the file is missing and when it does not hold JSON; the collection
    is then empty, and the log has one more record: a warning for the
    missing file, an error for the malformed one. *)
Theorem load_starts_empty :
  (∀ s : Sys bank_service.BankService,
     let path := bank_service.data_source (self s) in
     (files (world s) !! path = None →
      ∃ msg, bank_service.load_accounts s =
        (Return (),
         mkSys (bank_service.mkBankService path ∅)
           (logged (mkLogRecord WARNING msg false) (world s))))
     ∧ (∀ text, files (world s) !! path = Some (Text text) →
        ∃ msg, bank_service.load_accounts s =
          (Return (),
           mkSys (bank_service.mkBankService path ∅)
             (logged (mkLogRecord ERROR msg false) (world s)))))
  ∧ (∀ s : Sys task_service.TaskService,
       let path := task_service.data_source (self s) in
       (files (world s) !! path = None →
        ∃ msg, task_service.load_tasks s =
          (Return (),
           mkSys (task_service.mkTaskService path [])
             (logged (mkLogRecord WARNING msg false) (world s))))
       ∧ (∀ text, files (world s) !! path = Some (Text text) →
          ∃ msg, task_service.load_tasks s =
            (Return (),
             mkSys (task_service.mkTaskService path [])
               (logged (mkLogRecord ERROR msg false) (world s))))).
Proof.
  split; intros s; cbn zeta; split.
  - intros H. eexists. by apply load_accounts_missing.
  - intros text H. eexists. by eapply load_accounts_malformed.
  - intros H. eexists. by apply load_tasks_missing.
  - intros text H. eexists. by eapply load_tasks_malformed.
Qed.

Lemma load_starts_empty_witness :
  (∃ msg, bank_service.load_accounts
            (mkSys (bank_service.mkBankService "accounts.json"
                      {[ "ACC0001" := alice 150 ]}) w_empty) =
      (Return (),
       mkSys (bank_service.mkBankService "accounts.json" ∅)
         (logged (mkLogRecord WARNING msg false) w_empty)))
  ∧ (∃ msg, bank_service.load_accounts
              (mkSys (bank_service.mkBankService "accounts.json" ∅)
                 (w_garbage "accounts.json")) =
        (Return (),
         mkSys (bank_service.mkBankService "accounts.json" ∅)
           (logged (mkLogRecord ERROR msg false) (w_garbage "accounts.json"))))
  ∧ (∃ msg, task_service.load_tasks
              (mkSys (task_service.mkTaskService "tasks.json" [report]) w_empty) =
        (Return (),
         mkSys (task_service.mkTaskService "tasks.json" [])
           (logged (mkLogRecord WARNING msg false) w_empty)))
  ∧ (∃ msg, task_service.load_tasks
              (mkSys (task_service.mkTaskService "tasks.json" [])
                 (w_garbage "tasks.json")) =
        (Return (),
         mkSys (task_service.mkTaskService "tasks.json" [])
           (logged (mkLogRecord ERROR msg false) (w_garbage "tasks.json")))).
Proof.
  split; [|split; [|split]].
  - apply (proj1 (proj1 load_starts_empty
             (mkSys (bank_service.mkBankService "accounts.json"
                       {[ "ACC0001" := alice 150 ]}) w_empty))).
    reflexivity.
  - apply (proj2 (proj1 load_starts_empty
             (mkSys (bank_service.mkBankService "accounts.json" ∅)
                (w_garbage "accounts.json"))) "invalid json").
    reflexivity.
  - apply (proj1 (proj2 load_starts_empty
             (mkSys (task_service.mkTaskService "tasks.json" [report]) w_empty))).
    reflexivity.
  - apply (proj2 (proj2 load_starts_empty
             (mkSys (task_service.mkTaskService "tasks.json" [])
                (w_garbage "tasks.json"))) "invalid json").
    reflexivity.
Defined.

(** The constructors call the loaders: a service built over a file that
    is not JSON starts empty. *)
Example constructors_start_empty :
  bank_service.__init__ ∅ (Some "accounts.json") (w_garbage "accounts.json")
    = (Return (),
       mkSys (bank_service.mkBankService "accounts.json" ∅)
         (logged (mkLogRecord ERROR
                    [Lit "Error decoding JSON in '"; Lit "accounts.json";
                     Lit "'. Starting with empty account list."] false)
            (w_garbage "accounts.json")))
  ∧ task_service.__init__ "tasks.json" (w_garbage "tasks.json")
    = (Return (),
       mkSys (task_service.mkTaskService "tasks.json" [])
         (logged (mkLogRecord ERROR
                    [Lit "Error decoding JSON in '"; Lit "tasks.json";
                     Lit "'. Starting with empty task list."] false)
            (w_garbage "tasks.json"))).
Proof. split; reflexivity. Qed.

(** ** Fresh identities *)

Section account_numbers.
Import account bank_service.

Lemma zeros_digits (k : nat) (d : Decimal.uint) :
  zeros k +:+ NilEmpty.string_of_uint d
    = NilEmpty.string_of_uint (Nat.iter k Decimal.D0 d).
Proof.
  induction k as [|k IH]; [done|].
  change (String "0" (zeros k +:+ NilEmpty.string_of_uint d)
          = String "0" (NilEmpty.string_of_uint (Nat.iter k Decimal.D0 d))).
  by rewrite IH.
Qed.

Lemma of_uint_zeros (k : nat) (d : Decimal.uint) :
  Nat.of_uint (Nat.iter k Decimal.D0 d) = Nat.of_uint d.
Proof. induction k as [|k IH]; [done|]. cbn. exact IH. Qed.

(** The padded digits read back as the number. *)
Lemma unformat_format_04 (n : nat) : unformat (format_04 n) = Some n.
Proof.
  unfold unformat, format_04. cbn zeta.
  assert (∃ d, NilZero.string_of_uint (Nat.to_uint n) = NilEmpty.string_of_uint d
               ∧ Nat.of_uint d = n) as (d & -> & Hd).
  { pose proof (Unsigned.of_to n) as Hn.
    destruct (Nat.to_uint n) as [| | | | | | | | | |] eqn:E;
      first [by exists (Decimal.D0 Decimal.Nil) | by eexists]. }
  rewrite zeros_digits, NilEmpty.usu. cbn. by rewrite of_uint_zeros, Hd.
Qed.

Lemma number_inj (i j : nat) : number i = number j → i = j.
Proof.
  unfold number. intros H%(inj (String.append "ACC")).
  assert (Some i = Some j) as [=]; [|done].
  by rewrite <-!unformat_format_04, H.
Qed.

Lemma sequential_empty : sequential ∅.
Proof.
  intros k. rewrite lookup_empty, map_size_empty. split.
  - by intros [? [=]].
  - intros (i & ? & _). lia.
Qed.

(** The next account number is not in use. *)
Lemma sequential_next (accs : gmap string Account) :
  sequential accs → accs !! number (size accs + 1) = None.
Proof.
  intros Hseq. apply eq_None_not_Some. intros (i & Hi & Heq)%Hseq.
  apply number_inj in Heq. lia.
Qed.

Lemma sequential_insert_next (accs : gmap string Account) acc :
  sequential accs → sequential (<[number (size accs + 1) := acc]> accs).
Proof.
  intros Hseq k. rewrite map_size_insert_None by by apply sequential_next.
  unfold sequential in Hseq. rewrite lookup_insert_is_Some', Hseq. split.
  - intros [<-|(i & Hi & ->)]; [exists (size accs + 1)%nat | exists i]; split; by try lia.
  - intros (i & Hi & ->). destruct (decide (i = size accs + 1)%nat) as [->|];
      [by left | right; exists i; split; [lia|done]].
Qed.

Lemma same_size (m m' : gmap string Account) :
  (∀ k, is_Some (m !! k) ↔ is_Some (m' !! k)) → size m = size m'.
Proof.
  intros H. rewrite <-!(size_dom (D := gset string)). f_equal.
  apply set_eq. intros k. by rewrite !elem_of_dom.
Qed.

Lemma same_identities_is_Some b b' k :
  same_identities b b' → is_Some (accounts b !! k) ↔ is_Some (accounts b' !! k).
Proof.
  intros [_ H]. specialize (H k).
  by destruct (accounts b !! k), (accounts b' !! k).
Qed.

Lemma same_identities_sequential b b' :
  same_identities b b' → sequential (accounts b) → sequential (accounts b').
Proof.
  intros Hsame Hseq k. unfold sequential in Hseq.
  rewrite <-(same_identities_is_Some _ _ _ Hsame), Hseq.
  by rewrite (same_size (accounts b) (accounts b'))
    by (intros; by apply same_identities_is_Some).
Qed.

Lemma create_account_run (s : Sys BankService) h (b : Qc) :
  create_account h b s =
    if bool_decide (b < 0)%Qc
    then (Raise (ValueError "Initial balance cannot be negative."), s)
    else
      let n := number (size (accounts (self s)) + 1) in
      let new_account := mkAccount n h b in
      let grown :=
        mkBankService (data_source (self s)) (<[n := new_account]> (accounts (self s))) in
      if bool_decide (data_source (self s) ∈ unwritable (world s))
      then
        (Raise (OSError (data_source (self s))),
         mkSys grown
           (logged (mkLogRecord ERROR
                      [Lit "Error saving account data: ";
                       Exc (OSError (data_source (self s)))] true) (world s)))
      else
        (Return new_account,
         mkSys grown
           (logged (mkLogRecord INFO
                      [Lit "Created account "; Lit n; Lit " for "; Lit h; Lit "."]
                      false)
              (logged (mkLogRecord INFO [Lit "Accounts successfully saved"] false)
                 (written (data_source (self s))
                    (accounts_document (accounts grown)) (world s))))).
Proof.
  unfold create_account. case_bool_decide; [done|].
  unfold _generate_account_number, accounts_setitem. run_monad.
  rewrite save_accounts_run. cbn. by case_bool_decide.
Qed.

(** One call of a session on a bank whose numbers are sequential: they
    are sequential afterwards, no account is lost, and an account
    returned by [create_account] has a number that was not in use and
    now is. *)
Lemma bank_perform_sequential (c : bank_session.call) (s : Sys BankService) :
  sequential (accounts (self s)) →
  let r := (bank_session.perform c s).1 in
  let s' := (bank_session.perform c s).2 in
  sequential (accounts (self s'))
  ∧ (∀ k, is_Some (accounts (self s) !! k) → is_Some (accounts (self s') !! k))
  ∧ (∀ acc, r = Return (Some acc) →
       accounts (self s) !! account_number acc = None
       ∧ is_Some (accounts (self s') !! account_number acc)).
Proof.
  intros Hseq. cbn zeta.
  assert (∀ (m : M (Sys BankService) ()),
    keeps same_identities m →
    let p := bind m (λ _, ret (@None Account)) s in
    sequential (accounts (self p.2))
    ∧ (∀ k, is_Some (accounts (self s) !! k) → is_Some (accounts (self p.2) !! k))
    ∧ (∀ acc, p.1 = Return (Some acc) →
         accounts (self s) !! account_number acc = None
         ∧ is_Some (accounts (self p.2) !! account_number acc))) as Hkeep.
  { intros m Hm. specialize (Hm s). unfold bind, ret. cbn zeta.
    destruct (m s) as [[[]|e] s']; cbn in *.
    all: split; [by eapply same_identities_sequential|].
    all: split; [intros k Hk; by apply (same_identities_is_Some _ _ k Hm)
                |by intros acc [=]]. }
  destruct c as [h b|n a|n a|f t a]; cbn [bank_session.perform].
  - unfold bind, ret. rewrite create_account_run.
    pose proof (sequential_next _ Hseq) as Hnext.
    pose proof (lookup_insert_is_Some' (accounts (self s))) as Hins.
    repeat case_bool_decide; cbn.
    + split; [done|]. split; [done|]. by intros acc [=].
    + split; [by apply sequential_insert_next|].
      split; [intros k ?; apply Hins; by right|]. by intros acc [=].
    + split; [by apply sequential_insert_next|].
      split; [intros k ?; apply Hins; by right|].
      intros acc [= <-]. cbn. split; [done|]. apply Hins. by left.
  - apply Hkeep, keeps_deposit.
  - apply Hkeep, keeps_withdraw.
  - apply Hkeep, keeps_transfer.
Qed.

Lemma created_cons_bank r rs :
  bank_session.created (r :: rs) =
    match r with
    | Return (Some acc) => account_number acc :: bank_session.created rs
    | _ => bank_session.created rs
    end.
Proof. by destruct r as [[|]|]. Qed.

(** In a session on a bank whose numbers are sequential, the numbers of
    the accounts that [create_account] returned are pairwise distinct,
    and none was in use when the session began. *)
Lemma bank_session_fresh (cs : list bank_session.call) (s : Sys BankService) :
  sequential (accounts (self s)) →
  NoDup (bank_session.created (bank_session.run cs s).1)
  ∧ ∀ k, k ∈ bank_session.created (bank_session.run cs s).1 →
         accounts (self s) !! k = None.
Proof.
  revert s. induction cs as [|c cs IH]; intros s Hseq.
  { split; [constructor|]. by intros k ?%elem_of_nil. }
  cbn [bank_session.run].
  destruct (bank_perform_sequential c s Hseq) as (Hseq' & Hmono & Hnew).
  destruct (bank_session.perform c s) as [r s1]. cbn [fst snd] in *.
  destruct (IH s1 Hseq') as [Hnd Hfresh].
  destruct (bank_session.run cs s1) as [rs s2]. cbn [fst snd] in *.
  assert (∀ k, k ∈ bank_session.created rs → accounts (self s) !! k = None) as Hold.
  { intros k Hk%Hfresh. apply eq_None_not_Some. intros ?%Hmono.
    rewrite Hk in *. by eapply is_Some_None. }
  rewrite created_cons_bank. destruct r as [[acc|]|e]; try done.
  destruct (Hnew acc eq_refl) as [Hnone Hsome]. split.
  - constructor; [|done]. intros Hin%Hfresh. rewrite Hin in Hsome.
    by eapply is_Some_None.
  - intros k [->|Hk]%elem_of_cons; [done|by apply Hold].
Qed.

End account_numbers.

Section task_ids.
Import task task_service.

(** One call of a session that is not a [delete_task]: a task returned
    by [create_task] has the id one above the maximum and its id is
    appended to the ids; every other call leaves the ids as they were. *)
Lemma task_perform_ids (c : task_session.call) (s : Sys TaskService) :
  task_session.is_delete c = false →
  match (task_session.perform c s).1 with
  | Return (Some t) =>
      task_id t = (max (ids s) 0 + 1)%Z
      ∧ ids (task_session.perform c s).2 = ids s ++ [task_id t]
  | _ => ids (task_session.perform c s).2 = ids s
  end.
Proof.
  destruct c as [ti d dd|i ti d dd st|i|i]; intros Hc; [| |done|];
    cbn [task_session.perform]; unfold bind, ret.
  - rewrite create_task_run. destruct (all _); cbn; [|done].
    split; [done|]. unfold ids. cbn. by rewrite fmap_app.
  - rewrite update_task_run. destruct (find_task i _); [|done].
    destruct (all _); cbn; [|done]. by apply task_id_assign.
  - unfold get_task. run_monad. by destruct (find_task i _).
Qed.

Lemma created_cons_task r rs :
  task_session.created (r :: rs) =
    match r with
    | Return (Some t) => task_id t :: task_session.created rs
    | _ => task_session.created rs
    end.
Proof. by destruct r as [[|]|]. Qed.

(** In a session without [delete_task], the ids of the tasks that
    [create_task] returned are pairwise distinct, and each is above
    every id that was in the list when the session began. *)
Lemma task_session_fresh (cs : list task_session.call) (s : Sys TaskService) :
  Forall (λ c, task_session.is_delete c = false) cs →
  NoDup (task_session.created (task_session.run cs s).1)
  ∧ ∀ k, k ∈ task_session.created (task_session.run cs s).1 →
         (max (ids s) 0 < k)%Z ∧ k ∉ ids s.
Proof.
  revert s. induction cs as [|c cs IH]; intros s Hcs.
  { split; [constructor|]. by intros k ?%elem_of_nil. }
  apply Forall_cons_1 in Hcs as [Hc Hcs]. cbn [task_session.run].
  pose proof (task_perform_ids c s Hc) as Hstep.
  destruct (task_session.perform c s) as [r s1]. cbn [fst snd] in *.
  destruct (IH s1 Hcs) as [Hnd Hfresh].
  destruct (task_session.run cs s1) as [rs s2]. cbn [fst snd] in *.
  assert (∀ k, (max (ids s) 0 < k)%Z → k ∉ ids s) as Habove.
  { intros k Hk Hin. pose proof (max_ge _ 0 _ Hin). lia. }
  rewrite created_cons_task. destruct r as [[t|]|e].
  - destruct Hstep as [Hid Hids].
    assert (max (ids s1) 0 = task_id t) as Hmax
      by (rewrite Hids; apply max_snoc; lia).
    rewrite Hmax in Hfresh. split.
    + constructor; [|done]. intros [? _]%Hfresh. lia.
    + intros k [->|[Hk _]%Hfresh]%elem_of_cons; (split; [lia|apply Habove; lia]).
  - rewrite Hstep in Hfresh. by split.
  - rewrite Hstep in Hfresh. by split.
Qed.

End task_ids.

(** C6 (amended).  [create_task] returns a task whose id is one above
    the maximum id in the list, above the id of every task then in the
    list; in a session without [delete_task] the ids it assigns are
    pairwise distinct and differ from every id the list began with.
    In a session on a bank whose account numbers are the first [size]
    numbers (an empty bank is one), the numbers that [create_account]
    assigns are pairwise distinct and none was in use at the start. *)
Theorem created_identity_is_fresh :
  (∀ (s s' : Sys task_service.TaskService) ti d dd t,
     task_service.create_task ti d dd s = (Return t, s') →
     task.task_id t = (task_service.max (ids s) 0 + 1)%Z
     ∧ Forall (λ u, (task.task_id u < task.task_id t)%Z) (task_service.tasks (self s)))
  ∧ (∀ cs (s : Sys task_service.TaskService),
       Forall (λ c, task_session.is_delete c = false) cs →
       NoDup (task_session.created (task_session.run cs s).1)
       ∧ ∀ k, k ∈ task_session.created (task_session.run cs s).1 → k ∉ ids s)
  ∧ (∀ cs (s : Sys bank_service.BankService),
       sequential (bank_service.accounts (self s)) →
       NoDup (bank_session.created (bank_session.run cs s).1)
       ∧ ∀ k, k ∈ bank_session.created (bank_session.run cs s).1 →
              bank_service.accounts (self s) !! k = None).
Proof.
  split; [|split].
  - intros s s' ti d dd t. rewrite create_task_run.
    destruct (task_service.all _); [|done]. cbn zeta. intros [= <- _].
    split; [done|]. apply Forall_forall. intros u Hu%list_elem_of_In. cbn.
    assert (task.task_id u ∈ ids s) as Hin
      by (unfold ids; by apply list_elem_of_fmap_2).
    pose proof (max_ge _ 0 _ Hin). unfold ids in *. lia.
  - intros cs s Hcs. destruct (task_session_fresh cs s Hcs) as [Hnd Hfresh].
    split; [done|]. intros k Hk. by apply Hfresh.
  - apply bank_session_fresh.
Qed.

Lemma created_identity_is_fresh_witness :
  (task.task_id report = (task_service.max (ids tasks0) 0 + 1)%Z
   ∧ Forall (λ u, (task.task_id u < task.task_id report)%Z)
       (task_service.tasks (self tasks0)))
  ∧ (NoDup (task_session.created (task_session.run create_update_create tasks2).1)
     ∧ ∀ k, k ∈ task_session.created (task_session.run create_update_create tasks2).1 →
            k ∉ ids tasks2)
  ∧ (NoDup (bank_session.created (bank_session.run open_two_accounts bank_empty).1)
     ∧ ∀ k, k ∈ bank_session.created (bank_session.run open_two_accounts bank_empty).1 →
            bank_service.accounts (self bank_empty) !! k = None).
Proof.
  split; [|split].
  - eapply (proj1 created_identity_is_fresh tasks0 _
              "Report" "Quarterly numbers" "2024-03-25" report).
    reflexivity.
  - apply (proj1 (proj2 created_identity_is_fresh) create_update_create tasks2).
    repeat constructor.
  - apply (proj2 (proj2 created_identity_is_fresh) open_two_accounts bank_empty).
    exact sequential_empty.
Defined.

(** C6 as stated fails: after the task with the highest id is deleted,
    [create_task] assigns that id again. *)
Lemma create_after_delete_counterexample :
  task_session.created (task_session.run create_delete_create tasks0).1 = [1%Z; 1%Z]
  ∧ ¬ NoDup (task_session.created (task_session.run create_delete_create tasks0).1).
Proof.
  split; [reflexivity|]. intros Hnd.
  change (NoDup [1%Z; 1%Z]) in Hnd.
  inversion Hnd as [|x l Hnotin _]; subst. apply Hnotin. by left.
Qed.

(** Why the bank has to be sequential: on a bank loaded with a single
    account numbered ACC0002, two calls of [create_account] are both
    handed ACC0002, the second account replacing the first. *)
Example create_on_renumbered_bank :
  bank_session.created
    (bank_session.run
       [ bank_session.create_account "Alice" (qc 100);
         bank_session.create_account "Carol" (qc 10) ] bank_renumbered).1
  = ["ACC0002"; "ACC0002"].
Proof. reflexivity. Qed.

(** The scenario of the specification, from an empty bank: Alice opens
    with 100 and deposits 50, a withdrawal of 200 raises and changes
    nothing, Bob opens with 0, and a transfer of 50 leaves Alice at 100
    and Bob at 50. *)
Example open_two_accounts_scenario :
  (bank_session.run open_two_accounts bank_empty).1
    = [ Return (Some (alice 100)); Return None;
        Raise (ValueError "Insufficient balance.");
        Return (Some (bob 0)); Return None ]
  ∧ bank_service.accounts (self (bank_session.run open_two_accounts bank_empty).2)
    = {[ "ACC0001" := alice 100; "ACC0002" := bob 50 ]}.
Proof. split; by vm_compute. Qed.

Lemma delete_task_spec_witness :
  (∃ l1 l2,
     [report; memo] = l1 ++ memo :: l2
     ∧ Forall (λ u, task.task_id u ≠ 2%Z) l1
     ∧ let left := task_service.mkTaskService "tasks.json" (l1 ++ l2) in
       let flushed := world (task_service.save_tasks (mkSys left w_empty)).2 in
       task_service.delete_task 2 tasks2 =
         (Return true,
          mkSys left
            (logged (mkLogRecord INFO [Lit "Task deleted: "; Lit "Memo"] false)
               flushed))
       ∧ ("tasks.json" ∉ unwritable w_empty →
          files flushed !! "tasks.json" = Some (tasks_document (l1 ++ l2))))
  ∧ (∃ msg, task_service.delete_task 99 tasks2 =
       (Return false,
        mkSys (self tasks2) (logged (mkLogRecord WARNING msg false) w_empty))).
Proof.
  split.
  - exact (proj1 (delete_task_spec tasks2 2) memo eq_refl).
  - exact (proj2 (delete_task_spec tasks2 99) eq_refl).
Defined.

(** ** Write failures *)

Lemma deposit_service_run (s : Sys bank_service.BankService) n a acc :
  bank_service.accounts (self s) !! n = Some acc → (0 < a)%Qc →
  bank_service.deposit n a s =
    bind bank_service.save_accounts
      (λ _, logger_info [Lit "Deposited "; Fixed2 a; Lit " into account ";
                         Lit n; Lit "."])
      (mkSys (bank_service.mkBankService (bank_service.data_source (self s))
                (<[n := credited a acc]> (bank_service.accounts (self s))))
             (world s)).
Proof.
  intros Hn Ha. unfold bank_service.deposit, bank_service.get_account.
  unfold bind at 1 2 3. unfold get_self, ret. cbn [fst snd]. rewrite Hn.
  cbn [bank_service.not_]. unfold bind at 1.
  rewrite (method_run _ _ _ _ Hn), deposit_run.
  by rewrite bool_decide_eq_false_2 by (by apply Qclt_not_le).
Qed.

Lemma withdraw_service_run (s : Sys bank_service.BankService) n a acc :
  bank_service.accounts (self s) !! n = Some acc →
  (0 < a)%Qc → (a <= account.balance acc)%Qc →
  bank_service.withdraw n a s =
    bind bank_service.save_accounts
      (λ _, logger_info [Lit "Withdrew "; Fixed2 a; Lit " from account ";
                         Lit n; Lit "."])
      (mkSys (bank_service.mkBankService (bank_service.data_source (self s))
                (<[n := debited a acc]> (bank_service.accounts (self s))))
             (world s)).
Proof.
  intros Hn Ha Hle. unfold bank_service.withdraw, bank_service.get_account.
  unfold bind at 1 2 3. unfold get_self, ret. cbn [fst snd]. rewrite Hn.
  cbn [bank_service.not_]. unfold bind at 1.
  rewrite (method_run _ _ _ _ Hn), withdraw_run.
  rewrite bool_decide_eq_false_2 by (by apply Qclt_not_le).
  by rewrite bool_decide_eq_false_2 by (by apply Qcle_not_lt).
Qed.

(** The bank: when the path cannot be written, [save_accounts] raises
    what [open] raised, and so does every mutating method whose
    validation passed. *)
Lemma bank_write_failure_propagates (s : Sys bank_service.BankService) :
  let path := bank_service.data_source (self s) in
  path ∈ unwritable (world s) →
  (bank_service.save_accounts s).1 = Raise (OSError path)
  ∧ (∀ h b, ¬ (b < 0)%Qc →
       (bank_service.create_account h b s).1 = Raise (OSError path))
  ∧ (∀ n a acc, bank_service.accounts (self s) !! n = Some acc → (0 < a)%Qc →
       (bank_service.deposit n a s).1 = Raise (OSError path))
  ∧ (∀ n a acc, bank_service.accounts (self s) !! n = Some acc →
       (0 < a)%Qc → (a <= account.balance acc)%Qc →
       (bank_service.withdraw n a s).1 = Raise (OSError path))
  ∧ (∀ f t a af at_,
       bank_service.accounts (self s) !! f = Some af →
       bank_service.accounts (self s) !! t = Some at_ →
       (0 < a)%Qc → (a <= account.balance af)%Qc →
       (bank_service.transfer f t a s).1 = Raise (OSError path)).
Proof.
  intros path H. subst path. repeat split.
  - rewrite save_accounts_run. by rewrite bool_decide_eq_true_2.
  - intros h b Hb. rewrite create_account_run.
    rewrite bool_decide_eq_false_2 by done. cbn zeta.
    by rewrite bool_decide_eq_true_2.
  - intros n a acc Hn Ha. rewrite (deposit_service_run _ _ _ _ Hn Ha).
    unfold bind. rewrite save_accounts_run. cbn.
    by rewrite bool_decide_eq_true_2.
  - intros n a acc Hn Ha Hle. rewrite (withdraw_service_run _ _ _ _ Hn Ha Hle).
    unfold bind. rewrite save_accounts_run. cbn.
    by rewrite bool_decide_eq_true_2.
  - intros f t a af at_ Hf Ht Ha Hle.
    rewrite (transfer_run _ _ _ _ _ _ Hf Ht). cbn zeta.
    rewrite bool_decide_eq_false_2 by (by apply Qclt_not_le).
    rewrite bool_decide_eq_false_2 by (by apply Qcle_not_lt).
    unfold transferred. cbn. by rewrite bool_decide_eq_true_2.
Qed.

(** C5 fails for the task service.  With a path that cannot be
    written, [create_task] returns the new task and [delete_task]
    returns [True]: [save_tasks] logs what [open] raised and returns, so
    the caller sees no exception and the file is never written. *)
Theorem save_tasks_swallows_write_failure :
  (task_service.save_tasks tasks_readonly).1 = Return ()
  ∧ ∃ s1 s2,
      task_service.create_task "Report" "Quarterly numbers" "2024-03-25"
        tasks_readonly = (Return report, s1)
      ∧ task_service.tasks (self s1) = [report]
      ∧ files (world s1) = ∅
      ∧ task_service.delete_task 1 s1 = (Return true, s2)
      ∧ files (world s2) = ∅.
Proof.
  split; [reflexivity|]. do 2 eexists.
  split; [reflexivity|]. split; [reflexivity|]. split; [reflexivity|].
  split; reflexivity.
Qed.

(** * Further properties *)

(** ** The methods of the bank, case by case *)

Section bank_cases.
Import account bank_service.
Implicit Types (s : Sys BankService) (acc : Account) (a : Qc).

Lemma after_save_run {A} (x : A) (msg : list piece) (b : BankService) (w : World) :
  bind save_accounts (λ _, bind (logger_info msg) (λ _, ret x)) (mkSys b w)
    = after_save x (mkLogRecord INFO msg false) b w.
Proof.
  unfold bind at 1. rewrite save_accounts_run. unfold after_save. cbn.
  by destruct (bool_decide (_ ∈ unwritable _)).
Qed.

Lemma after_save_unit_run (msg : list piece) (b : BankService) (w : World) :
  bind save_accounts (λ _, logger_info msg) (mkSys b w)
    = after_save () (mkLogRecord INFO msg false) b w.
Proof.
  unfold bind at 1. rewrite save_accounts_run. unfold after_save. cbn.
  by destruct (bool_decide (_ ∈ unwritable _)).
Qed.

Lemma self_after_save {A} (x : A) r (b : BankService) w :
  self (after_save x r b w).2 = b.
Proof. unfold after_save. by case_bool_decide. Qed.

Lemma create_account_cases s h (bal : Qc) :
  create_account h bal s =
    if bool_decide (bal < 0)%Qc
    then (Raise (ValueError "Initial balance cannot be negative."), s)
    else
      let n := number (size (accounts (self s)) + 1) in
      let new_account := mkAccount n h bal in
      after_save new_account
        (mkLogRecord INFO
           [Lit "Created account "; Lit n; Lit " for "; Lit h; Lit "."] false)
        (mkBankService (data_source (self s)) (<[n := new_account]> (accounts (self s))))
        (world s).
Proof.
  rewrite create_account_run. case_bool_decide; [done|].
  unfold after_save. cbn. by case_bool_decide.
Qed.

Lemma deposit_cases s n a :
  bank_service.deposit n a s =
    match accounts (self s) !! n with
    | None => (Raise (ValueError ("Account " +:+ n +:+ " not found.")), s)
    | Some acc =>
        if bool_decide (a <= 0)%Qc
        then (Raise (ValueError "Deposit amount must be positive."), s)
        else
          after_save ()
            (mkLogRecord INFO
               [Lit "Deposited "; Fixed2 a; Lit " into account "; Lit n; Lit "."]
               false)
            (mkBankService (data_source (self s))
               (<[n := credited a acc]> (accounts (self s))))
            (world s)
    end.
Proof.
  destruct (accounts (self s) !! n) as [acc|] eqn:Hn.
  - case_bool_decide as Ha.
    + unfold bank_service.deposit, get_account. unfold bind at 1 2 3.
      unfold get_self, ret. cbn [fst snd]. rewrite Hn. cbn [not_].
      unfold bind at 1. rewrite (method_run _ _ _ _ Hn), deposit_run.
      rewrite bool_decide_eq_true_2 by done. cbn.
      rewrite insert_id by done. by destruct s as [[ds accs] w].
    + rewrite (deposit_service_run _ _ _ _ Hn) by (by apply Qcnot_le_lt).
      apply after_save_unit_run.
  - unfold bank_service.deposit, get_account. run_monad. by rewrite Hn.
Qed.

Lemma withdraw_cases s n a :
  bank_service.withdraw n a s =
    match accounts (self s) !! n with
    | None => (Raise (ValueError ("Account " +:+ n +:+ " not found.")), s)
    | Some acc =>
        if bool_decide (a <= 0)%Qc
        then (Raise (ValueError "Withdrawal amount must be positive."), s)
        else if bool_decide (balance acc < a)%Qc
        then (Raise (ValueError "Insufficient balance."), s)
        else
          after_save ()
            (mkLogRecord INFO
               [Lit "Withdrew "; Fixed2 a; Lit " from account "; Lit n; Lit "."]
               false)
            (mkBankService (data_source (self s))
               (<[n := debited a acc]> (accounts (self s))))
            (world s)
    end.
Proof.
  destruct (accounts (self s) !! n) as [acc|] eqn:Hn.
  - case_bool_decide as Ha; [|case_bool_decide as Hb].
    + unfold bank_service.withdraw, get_account. unfold bind at 1 2 3.
      unfold get_self, ret. cbn [fst snd]. rewrite Hn. cbn [not_].
      unfold bind at 1. rewrite (method_run _ _ _ _ Hn), withdraw_run.
      rewrite bool_decide_eq_true_2 by done. cbn.
      rewrite insert_id by done. by destruct s as [[ds accs] w].
    + unfold bank_service.withdraw, get_account. unfold bind at 1 2 3.
      unfold get_self, ret. cbn [fst snd]. rewrite Hn. cbn [not_].
      unfold bind at 1. rewrite (method_run _ _ _ _ Hn), withdraw_run.
      rewrite bool_decide_eq_false_2 by done.
      rewrite bool_decide_eq_true_2 by done. cbn.
      rewrite insert_id by done. by destruct s as [[ds accs] w].
    + rewrite (withdraw_service_run _ _ _ _ Hn)
        by (first [by apply Qcnot_le_lt | by apply Qcnot_lt_le]).
      apply after_save_unit_run.
  - unfold bank_service.withdraw, get_account. run_monad. by rewrite Hn.
Qed.

Lemma transfer_cases s f t a :
  bank_service.transfer f t a s =
    match accounts (self s) !! f, accounts (self s) !! t with
    | Some af, Some at_ =>
        let failed msg :=
          (Raise (ValueError msg),
           mkSys (self s)
             (logged (mkLogRecord ERROR
                        [Lit "Transfer failed: "; Exc (ValueError msg)] false)
                (world s))) in
        if bool_decide (a <= 0)%Qc then failed "Withdrawal amount must be positive."
        else if bool_decide (balance af < a)%Qc then failed "Insufficient balance."
        else
          after_save ()
            (mkLogRecord INFO
               [Lit "Transferred "; Fixed2 a; Lit " from "; Lit f;
                Lit " to "; Lit t; Lit "."] false)
            (mkBankService (data_source (self s))
               (<[t := credited a (if bool_decide (f = t) then debited a af else at_)]>
                  (<[f := debited a af]> (accounts (self s)))))
            (world s)
    | _, _ => (Raise (ValueError "One or both accounts not found."), s)
    end.
Proof.
  destruct (accounts (self s) !! f) as [af|] eqn:Hf;
    [destruct (accounts (self s) !! t) as [at_|] eqn:Ht|].
  - by rewrite (transfer_run _ _ _ _ _ _ Hf Ht).
  - unfold transfer, get_account. run_monad. by rewrite Hf, Ht.
  - unfold transfer, get_account. run_monad. rewrite Hf.
    by destruct (accounts (self s) !! t).
Qed.

End bank_cases.

(** ** The methods of the bank, one by one *)

Section bank_methods.
Import account bank_service.
Implicit Types (s : Sys BankService) (acc : Account) (a : Qc).

(** X1. [create_account] with a negative initial balance raises
    [ValueError] and changes nothing.  Otherwise, where the file can be
    written, it returns an account with the next number, the holder
    and the balance given, stores it under that number and writes the
    accounts to the file. *)
Theorem create_account_spec s h (bal : Qc) :
  ((bal < 0)%Qc →
   ∃ msg, create_account h bal s = (Raise (ValueError msg), s))
  ∧ (¬ (bal < 0)%Qc → data_source (self s) ∉ unwritable (world s) →
     let n := "ACC" +:+ format_04 (size (accounts (self s)) + 1) in
     let new_account := mkAccount n h bal in
     let grown :=
       mkBankService (data_source (self s)) (<[n := new_account]> (accounts (self s))) in
     create_account h bal s =
       (Return new_account,
        mkSys grown
          (logged (mkLogRecord INFO
                     [Lit "Created account "; Lit n; Lit " for "; Lit h; Lit "."]
                     false)
             (bank_saved grown (world s))))).
Proof.
  rewrite create_account_cases. split.
  - intros Hneg. rewrite bool_decide_eq_true_2 by done. by eexists.
  - intros Hok Hw. rewrite bool_decide_eq_false_2 by done. cbn zeta.
    unfold after_save. cbn. by rewrite bool_decide_eq_false_2 by done.
Qed.

Lemma create_account_spec_witness :
  (∃ msg, create_account "Carol" (qc (-100)) bank0 = (Raise (ValueError msg), bank0))
  ∧ (let new_account := mkAccount "ACC0003" "Carol" (qc 200) in
     let grown :=
       mkBankService "accounts.json"
         (<["ACC0003" := new_account]> (accounts (self bank0))) in
     create_account "Carol" (qc 200) bank0 =
       (Return new_account,
        mkSys grown
          (logged (mkLogRecord INFO
                     [Lit "Created account "; Lit "ACC0003"; Lit " for ";
                      Lit "Carol"; Lit "."] false)
             (bank_saved grown w_empty)))).
Proof.
  split.
  - apply (proj1 (create_account_spec bank0 "Carol" (qc (-100)))). by vm_compute.
  - apply (proj2 (create_account_spec bank0 "Carol" (qc 200))); by vm_compute.
Defined.

(** X2. [deposit] of the bank raises [ValueError] and changes nothing
    when the account is unknown or the amount is not positive.
    Otherwise, where the file can be written, the balance of that
    account grows by the amount, the other accounts are as they were,
    and the accounts are written to the file. *)
Theorem bank_deposit_spec s n a :
  (accounts (self s) !! n = None →
   bank_service.deposit n a s
     = (Raise (ValueError ("Account " +:+ n +:+ " not found.")), s))
  ∧ (∀ acc, accounts (self s) !! n = Some acc → (a <= 0)%Qc →
       ∃ msg, bank_service.deposit n a s = (Raise (ValueError msg), s))
  ∧ (∀ acc, accounts (self s) !! n = Some acc → (0 < a)%Qc →
       data_source (self s) ∉ unwritable (world s) →
       let changed :=
         mkBankService (data_source (self s))
           (<[n := credited a acc]> (accounts (self s))) in
       bank_service.deposit n a s =
         (Return (),
          mkSys changed
            (logged (mkLogRecord INFO
                       [Lit "Deposited "; Fixed2 a; Lit " into account ";
                        Lit n; Lit "."] false)
               (bank_saved changed (world s))))).
Proof.
  rewrite deposit_cases. split; [|split].
  - by intros ->.
  - intros acc -> Ha. rewrite bool_decide_eq_true_2 by done. by eexists.
  - intros acc -> Ha Hw.
    rewrite bool_decide_eq_false_2 by (by apply Qclt_not_le).
    unfold after_save. cbn. by rewrite bool_decide_eq_false_2 by done.
Qed.

Lemma bank_deposit_spec_witness :
  bank_service.deposit "ACC9999" (qc 50) bank0
    = (Raise (ValueError "Account ACC9999 not found."), bank0)
  ∧ (∃ msg, bank_service.deposit "ACC0001" (qc (-50)) bank0
            = (Raise (ValueError msg), bank0))
  ∧ (let changed :=
       mkBankService "accounts.json"
         (<["ACC0001" := credited (qc 50) (alice 150)]> (accounts (self bank0))) in
     bank_service.deposit "ACC0001" (qc 50) bank0 =
       (Return (),
        mkSys changed
          (logged (mkLogRecord INFO
                     [Lit "Deposited "; Fixed2 (qc 50); Lit " into account ";
                      Lit "ACC0001"; Lit "."] false)
             (bank_saved changed w_empty)))).
Proof.
  split; [|split].
  - apply (proj1 (bank_deposit_spec bank0 "ACC9999" (qc 50))). by vm_compute.
  - apply (proj1 (proj2 (bank_deposit_spec bank0 "ACC0001" (qc (-50))))
             (alice 150)); by vm_compute.
  - apply (proj2 (proj2 (bank_deposit_spec bank0 "ACC0001" (qc 50)))
             (alice 150)); by vm_compute.
Defined.

(** X3. [withdraw] of the bank raises [ValueError] and changes nothing
    when the account is unknown, the amount is not positive, or the
    amount exceeds the balance.  Otherwise, where the file can be
    written, the balance of that account shrinks by the amount, the
    other accounts are as they were, and the accounts are written to
    the file. *)
Theorem bank_withdraw_spec s n a :
  (accounts (self s) !! n = None →
   bank_service.withdraw n a s
     = (Raise (ValueError ("Account " +:+ n +:+ " not found.")), s))
  ∧ (∀ acc, accounts (self s) !! n = Some acc →
       (a <= 0)%Qc ∨ (balance acc < a)%Qc →
       ∃ msg, bank_service.withdraw n a s = (Raise (ValueError msg), s))
  ∧ (∀ acc, accounts (self s) !! n = Some acc →
       (0 < a)%Qc → (a <= balance acc)%Qc →
       data_source (self s) ∉ unwritable (world s) →
       let changed :=
         mkBankService (data_source (self s))
           (<[n := debited a acc]> (accounts (self s))) in
       bank_service.withdraw n a s =
         (Return (),
          mkSys changed
            (logged (mkLogRecord INFO
                       [Lit "Withdrew "; Fixed2 a; Lit " from account ";
                        Lit n; Lit "."] false)
               (bank_saved changed (world s))))).
Proof.
  rewrite withdraw_cases. split; [|split].
  - by intros ->.
  - intros acc -> Hbad. case_bool_decide; [by eexists|].
    destruct Hbad as [?|Hlt]; [done|].
    rewrite bool_decide_eq_true_2 by done. by eexists.
  - intros acc -> Ha Hle Hw.
    rewrite bool_decide_eq_false_2 by (by apply Qclt_not_le).
    rewrite bool_decide_eq_false_2 by (by apply Qcle_not_lt).
    unfold after_save. cbn. by rewrite bool_decide_eq_false_2 by done.
Qed.

Lemma bank_withdraw_spec_witness :
  bank_service.withdraw "ACC9999" (qc 25) bank0
    = (Raise (ValueError "Account ACC9999 not found."), bank0)
  ∧ (∃ msg, bank_service.withdraw "ACC0001" (qc 200) bank0
            = (Raise (ValueError msg), bank0))
  ∧ (let changed :=
       mkBankService "accounts.json"
         (<["ACC0001" := debited (qc 25) (alice 150)]> (accounts (self bank0))) in
     bank_service.withdraw "ACC0001" (qc 25) bank0 =
       (Return (),
        mkSys changed
          (logged (mkLogRecord INFO
                     [Lit "Withdrew "; Fixed2 (qc 25); Lit " from account ";
                      Lit "ACC0001"; Lit "."] false)
             (bank_saved changed w_empty)))).
Proof.
  split; [|split].
  - apply (proj1 (bank_withdraw_spec bank0 "ACC9999" (qc 25))). by vm_compute.
  - apply (proj1 (proj2 (bank_withdraw_spec bank0 "ACC0001" (qc 200)))
             (alice 150)); [by vm_compute|]. right. by vm_compute.
  - apply (proj2 (proj2 (bank_withdraw_spec bank0 "ACC0001" (qc 25)))
             (alice 150)); by vm_compute.
Defined.

(** X4. The account that [create_account] returned is the one
    [get_account] finds under its number afterwards; [get_account] of a
    number that is not in use returns [None]; it never changes the
    service. *)
Theorem get_account_after_create s s' h (bal : Qc) acc :
  create_account h bal s = (Return acc, s') →
  get_account (account_number acc) s' = (Return (Some acc), s')
  ∧ ∀ n, accounts (self s') !! n = None → get_account n s' = (Return None, s').
Proof.
  rewrite create_account_cases. case_bool_decide; [done|]. cbn zeta.
  unfold after_save. case_bool_decide; [done|]. intros [= <- <-].
  unfold get_account. run_monad. cbn. split.
  - by rewrite lookup_insert_eq.
  - by intros n ->.
Qed.

Lemma get_account_after_create_witness :
  let carol := mkAccount "ACC0003" "Carol" (qc 200) in
  let s' := (create_account "Carol" (qc 200) bank0).2 in
  get_account "ACC0003" s' = (Return (Some carol), s')
  ∧ get_account "ACC0004" s' = (Return None, s').
Proof.
  intros carol s'.
  assert (create_account "Carol" (qc 200) bank0 = (Return carol, s')) as Hc
    by by vm_compute.
  destruct (get_account_after_create bank0 s' "Carol" (qc 200) carol Hc) as [H1 H2].
  split; [exact H1|]. apply H2. by vm_compute.
Defined.

End bank_methods.

(** ** What every call of the bank keeps *)

Section bank_invariants.
Import account bank_service.
Implicit Types (s : Sys BankService) (b : BankService) (a : Qc).

(** Splits a call of the bank into the cases of its method. *)
Ltac bank_call_cases c s :=
  let h := fresh "h" in let bal := fresh "bal" in let n := fresh "n" in
  let a := fresh "a" in let f := fresh "f" in let t := fresh "t" in
  destruct c as [h bal|n a|n a|f t a]; cbn [bank_session.perform];
  unfold bind;
  [ rewrite create_account_cases
  | rewrite deposit_cases; destruct (accounts (self s) !! n) eqn:?
  | rewrite withdraw_cases; destruct (accounts (self s) !! n) eqn:?
  | rewrite transfer_cases;
    destruct (accounts (self s) !! f) eqn:?;
    destruct (accounts (self s) !! t) eqn:? ];
  cbn zeta; repeat case_bool_decide; unfold after_save;
  repeat case_bool_decide; cbn [fst snd ret self world].

(** The service that a call leaves is reached from the one it began
    with by the mutations of [bank_step]. *)
Lemma bank_perform_steps (c : bank_session.call) s :
  rtc bank_step (self s) (self (bank_session.perform c s).2).
Proof.
  bank_call_cases c s; subst.
  all: try first
    [ reflexivity
    | apply rtc_once; by econstructor
    | apply rtc_once; eapply step_credit; [done|by apply Qcnot_le_lt]
    | apply rtc_once; eapply step_debit;
        [done|by apply Qcnot_le_lt|by apply Qcnot_lt_le] ].
  all: match goal with
       | |- rtc _ _ (mkBankService _
                       (<[?t := credited ?a ?x]> (<[?f := debited ?a ?y]> ?m))) =>
           apply (rtc_l _ _ (mkBankService (data_source (self s))
                               (<[f := debited a y]> m)));
           [ apply (step_debit _ f a y);
               [done|by apply Qcnot_le_lt|by apply Qcnot_lt_le]
           | apply rtc_once;
             apply (step_credit (mkBankService _ _) t a x);
               [ cbn; first [by rewrite lookup_insert_eq
                            |by rewrite lookup_insert_ne]
               | by apply Qcnot_le_lt ] ]
       end.
Qed.

Lemma bank_run_steps (cs : list bank_session.call) s :
  rtc bank_step (self s) (self (bank_session.run cs s).2).
Proof.
  revert s. induction cs as [|c cs IH]; intros s; [done|].
  cbn [bank_session.run]. pose proof (bank_perform_steps c s) as Hc.
  destruct (bank_session.perform c s) as [r s1]. specialize (IH s1).
  destruct (bank_session.run cs s1) as [rs s2]. by etrans.
Qed.

Lemma bank_step_keyed b b' :
  bank_step b b' → keyed (accounts b) → keyed (accounts b').
Proof.
  intros Hstep Hk k acc'. destruct Hstep as [n a acc Hn Ha|n a acc Hn Ha Hle|h bal Hb];
    cbn; intros [[<- <-]|[_ H]]%lookup_insert_Some; cbn; by eauto.
Qed.

Lemma bank_step_solvent b b' :
  bank_step b b' → solvent (accounts b) → solvent (accounts b').
Proof.
  intros Hstep Hs k acc'. destruct Hstep as [n a acc Hn Ha|n a acc Hn Ha Hle|h bal Hb];
    cbn; intros [[<- <-]|[_ H]]%lookup_insert_Some; cbn; try by eauto.
  - apply Qclt_le_weak, Qcplus_nonneg_pos; by eauto.
  - by apply Qcle_minus_iff in Hle.
  - by apply Qcnot_lt_le.
Qed.

(** X5. When every account of the bank is stored under its own
    account number, it is so after every sequence of [create_account],
    [deposit], [withdraw] and [transfer], whatever each call returned
    or raised. *)
Theorem bank_accounts_stay_keyed (cs : list bank_session.call) s :
  keyed (accounts (self s)) →
  keyed (accounts (self (bank_session.run cs s).2)).
Proof.
  intros Hk. induction (bank_run_steps cs s) as [|b1 b2 b3 Hstep _ IH]; [done|].
  by eapply IH, bank_step_keyed.
Qed.

Lemma bank_accounts_stay_keyed_witness :
  keyed (accounts (self (bank_session.run open_two_accounts bank_empty).2)).
Proof.
  apply (bank_accounts_stay_keyed open_two_accounts bank_empty).
  intros k acc H. cbn in H. by rewrite lookup_empty in H.
Defined.

(** X6. When no balance of the bank is negative, none is after every
    sequence of [create_account], [deposit], [withdraw] and
    [transfer]: no call overdraws an account. *)
Theorem bank_never_overdrawn (cs : list bank_session.call) s :
  solvent (accounts (self s)) →
  solvent (accounts (self (bank_session.run cs s).2)).
Proof.
  intros Hs. induction (bank_run_steps cs s) as [|b1 b2 b3 Hstep _ IH]; [done|].
  by eapply IH, bank_step_solvent.
Qed.

Lemma bank_never_overdrawn_witness :
  solvent (accounts (self (bank_session.run open_two_accounts bank_empty).2)).
Proof.
  apply (bank_never_overdrawn open_two_accounts bank_empty).
  intros k acc H. cbn in H. by rewrite lookup_empty in H.
Defined.

(** X7. A call of the bank that returns has written the file: the file
    then holds exactly the accounts the service has in memory. *)
Theorem bank_return_means_flushed (c : bank_session.call) s r :
  (bank_session.perform c s).1 = Return r →
  bank_in_sync (bank_session.perform c s).2.
Proof.
  unfold bank_in_sync.
  bank_call_cases c s; intros [=]; unfold bank_saved, logged, written; cbn;
    by rewrite lookup_insert_eq.
Qed.

Lemma bank_return_means_flushed_witness :
  bank_in_sync
    (bank_session.perform (bank_session.deposit "ACC0001" (qc 50)) bank0).2.
Proof.
  by apply (bank_return_means_flushed
              (bank_session.deposit "ACC0001" (qc 50)) bank0 None).
Defined.

(** X8. A call of the bank that raises [ValueError] has changed neither
    the accounts nor the files: a rejected [create_account], [deposit],
    [withdraw] or [transfer] leaves no trace but, for [transfer], a log
    record. *)
Theorem bank_value_error_changes_nothing (c : bank_session.call) s msg :
  (bank_session.perform c s).1 = Raise (ValueError msg) →
  self (bank_session.perform c s).2 = self s
  ∧ files (world (bank_session.perform c s).2) = files (world s).
Proof. bank_call_cases c s; by intros [=]. Qed.

Lemma bank_value_error_changes_nothing_witness :
  self (bank_session.perform
          (bank_session.transfer "ACC0001" "ACC0002" (qc 200)) bank0).2
    = self bank0
  ∧ files (world (bank_session.perform
                    (bank_session.transfer "ACC0001" "ACC0002" (qc 200)) bank0).2)
    = files (world bank0).
Proof.
  by apply (bank_value_error_changes_nothing
              (bank_session.transfer "ACC0001" "ACC0002" (qc 200)) bank0
              "Insufficient balance.").
Defined.

End bank_invariants.

(** ** Saving and loading *)

Section persistence.
Import account bank_service.

Lemma account_from_to_dict {St} (acc : Account) (s : St) :
  account.from_dict (PDict (account.to_dict acc)) s = (Return acc, s).
Proof.
  destruct acc as [n h b]. unfold account.from_dict, account.to_dict.
  run_monad. cbn. by simplify_map_eq.
Qed.

Lemma account_document_inj (acc acc' : Account) :
  PDict (account.to_dict acc) = PDict (account.to_dict acc') → acc = acc'.
Proof.
  intros H. pose proof (account_from_to_dict acc ()) as H1.
  rewrite H, account_from_to_dict in H1. by injection H1.
Qed.

(** The loop of [load_accounts] over the items of a saved document:
    every item ends up under its key, the other keys are as before. *)
Lemma load_items_encoded (l : list (string * pyval)) (s : Sys BankService) :
  (∀ k v, (k, v) ∈ l → ∃ acc, v = PDict (account.to_dict acc)) →
  NoDup l.*1 →
  ∃ accs',
    load_items l s
      = (Return (), mkSys (mkBankService (data_source (self s)) accs') (world s))
    ∧ (∀ k acc, (k, PDict (account.to_dict acc)) ∈ l → accs' !! k = Some acc)
    ∧ (∀ k, k ∉ l.*1 → accs' !! k = accounts (self s) !! k).
Proof.
  revert s. induction l as [|[k0 v0] l IH]; intros s Henc Hnd.
  { exists (accounts (self s)). split; [by destruct s as [[]]|].
    split; [by intros k acc ?%elem_of_nil|done]. }
  destruct (Henc k0 v0) as [a0 ->]; [by left|].
  apply list.NoDup_cons in Hnd as [Hk0 Hnd].
  assert (∀ k v, (k, v) ∈ l → ∃ acc, v = PDict (account.to_dict acc)) as Henc'.
  { intros k v Hkv. apply (Henc k). by right. }
  destruct (IH (mkSys (mkBankService (data_source (self s))
                         (<[k0 := a0]> (accounts (self s)))) (world s))
              Henc' Hnd)
    as (accs' & Hrun & Hin & Hout).
  exists accs'. split; [|split].
  - cbn [load_items]. unfold bind at 1. rewrite account_from_to_dict.
    unfold accounts_setitem. run_monad. exact Hrun.
  - intros k acc [Heq|Hkv]%elem_of_cons.
    + pose proof (f_equal fst Heq) as Hk. pose proof (f_equal snd Heq) as Hv.
      cbn [fst snd] in Hk, Hv. subst k.
      apply account_document_inj in Hv as ->.
      rewrite Hout by done. cbn. by rewrite lookup_insert_eq.
    + by apply Hin.
  - intros k Hk. cbn in Hk. apply not_elem_of_cons in Hk as [Hne Hk].
    rewrite Hout by done. cbn. by rewrite lookup_insert_ne.
Qed.

(** X9. What [save_accounts] wrote, [BankService(data_source)] reads
    back: a bank built over the file that a bank has saved holds the
    very same accounts under the very same numbers. *)
Theorem bank_save_load_round_trip (s : Sys BankService) config :
  data_source (self s) ∉ unwritable (world s) →
  data_source (self s) ≠ "" →
  let saved := world (save_accounts s).2 in
  bank_service.__init__ config (Some (data_source (self s))) saved =
    (Return (),
     mkSys (self s)
       (logged (mkLogRecord INFO [Lit "Accounts loaded from file."] false) saved)).
Proof.
  intros Hw Hne. cbn zeta. rewrite save_accounts_run.
  rewrite bool_decide_eq_false_2 by done. cbn [snd world].
  unfold bank_service.__init__. rewrite bool_decide_eq_false_2 by done.
  set (doc := (λ acc, PDict (account.to_dict acc)) <$> accounts (self s)).
  destruct (load_items_encoded (map_to_list doc)
              (mkSys (mkBankService (data_source (self s)) ∅)
                 (logged (mkLogRecord INFO [Lit "Accounts successfully saved"] false)
                    (written (data_source (self s))
                       (accounts_document (accounts (self s))) (world s)))))
    as (accs' & Hrun & Hin & Hout).
  { intros k v Hkv%elem_of_map_to_list. unfold doc in Hkv.
    rewrite lookup_fmap in Hkv.
    destruct (accounts (self s) !! k) as [acc|]; [|done].
    injection Hkv as <-. by eexists. }
  { apply NoDup_fst_map_to_list. }
  assert (accs' = accounts (self s)) as ->.
  { apply map_eq. intros k. destruct (accounts (self s) !! k) as [acc|] eqn:Hk.
    - apply Hin, elem_of_map_to_list. unfold doc. by rewrite lookup_fmap, Hk.
    - rewrite Hout; [done|]. intros Hin'%list_elem_of_fmap.
      destruct Hin' as ([k' v] & Heq & Hkv%elem_of_map_to_list).
      cbn in Heq. subst k'. unfold doc in Hkv.
      by rewrite lookup_fmap, Hk in Hkv. }
  unfold load_accounts, try_except, bind at 1 2 3 4.
  unfold get_self, open_r_json_load, items, ret. cbn [fst snd self world data_source].
  unfold logged at 1, written at 1, accounts_document. cbn [files].
  rewrite lookup_insert_eq. fold doc. cbn in Hrun.
  unfold accounts_document in Hrun. fold doc in Hrun. rewrite Hrun.
  unfold logger_info, emit. cbn. by destruct s as [[ds accs] w].
Qed.

Lemma bank_save_load_round_trip_witness :
  let saved := world (save_accounts bank0).2 in
  bank_service.__init__ ∅ (Some "accounts.json") saved =
    (Return (),
     mkSys (self bank0)
       (logged (mkLogRecord INFO [Lit "Accounts loaded from file."] false) saved)).
Proof.
  apply (bank_save_load_round_trip bank0 ∅); by vm_compute.
Defined.

End persistence.

Section task_persistence.
Import task task_service.
Implicit Types (s : Sys TaskService) (i : Z) (t : Task) (ts : list Task).

Lemma task_from_to_dict {St} t (s : St) :
  task.from_dict (PDict (task.to_dict t)) s = (Return t, s).
Proof.
  destruct t as [i ti d dd st]. unfold task.from_dict, task.to_dict.
  run_monad. cbn. by simplify_map_eq.
Qed.

Lemma from_dicts_encoded {St} ts (s : St) :
  from_dicts ((λ t, PDict (task.to_dict t)) <$> ts) s = (Return ts, s).
Proof.
  induction ts as [|t ts IH]; [done|]. cbn [fmap list_fmap from_dicts].
  unfold bind at 1. rewrite task_from_to_dict. unfold bind at 1.
  change (list_fmap _ _ ?f ts) with (f <$> ts). by rewrite IH.
Qed.

(** X10. What [save_tasks] wrote, [load_tasks] reads back: after a save
    to a path that can be written, loading from that path gives the
    same tasks in the same order, whatever list the service held
    before the load. *)
Theorem tasks_save_load_round_trip s ts0 :
  data_source (self s) ∉ unwritable (world s) →
  let saved := world (save_tasks s).2 in
  load_tasks (mkSys (mkTaskService (data_source (self s)) ts0) saved) =
    (Return (),
     mkSys (self s)
       (logged (mkLogRecord INFO [Lit "Tasks loaded from file."] false) saved)).
Proof.
  intros Hw. cbn zeta. rewrite save_tasks_run.
  rewrite bool_decide_eq_false_2 by done. cbn [snd world].
  unfold load_tasks, try_except, bind at 1 2 3 4 5.
  unfold get_self, open_r_json_load, iter, ret.
  cbn [fst snd self world data_source].
  unfold logged at 1, written at 1, tasks_document. cbn [files].
  rewrite lookup_insert_eq, from_dicts_encoded.
  unfold set_tasks, logger_info, emit. run_monad. cbn.
  by destruct s as [[ds ts] w].
Qed.

Lemma tasks_save_load_round_trip_witness :
  let saved := world (save_tasks tasks2).2 in
  load_tasks (mkSys (mkTaskService "tasks.json" []) saved) =
    (Return (),
     mkSys (self tasks2)
       (logged (mkLogRecord INFO [Lit "Tasks loaded from file."] false) saved)).
Proof. apply (tasks_save_load_round_trip tasks2 []). by vm_compute. Defined.

(** X11. [load_accounts] and [load_tasks] return for every content of
    the file: no file and no JSON document makes them raise.  Unless the
    file holds a JSON object, the bank starts with no accounts; unless
    it holds a JSON array, object or string, the task service starts
    with no tasks. *)
Theorem load_never_raises :
  (∀ s : Sys bank_service.BankService,
     (bank_service.load_accounts s).1 = Return ()
     ∧ (bank_service.accounts (self (bank_service.load_accounts s).2) = ∅
        ∨ ∃ d, files (world s) !! bank_service.data_source (self s)
               = Some (Json (PDict d))))
  ∧ (∀ s : Sys TaskService,
       (load_tasks s).1 = Return ()
       ∧ (tasks (self (load_tasks s).2) = []
          ∨ ∃ v, files (world s) !! data_source (self s) = Some (Json v)
                 ∧ match v with
                   | PList _ | PDict _ | PStr _ => True
                   | _ => False
                   end)).
Proof.
  split; intros s.
  - remember (bank_service.load_accounts s) as p eqn:Hp.
    unfold bank_service.load_accounts, try_except, bind in Hp.
    unfold get_self, open_r_json_load, bank_service.items in Hp.
    cbn [fst snd self world] in Hp.
    destruct (files (world s) !! bank_service.data_source (self s))
      as [[text|v]|]; [subst p; by split; [|left]| |subst p; by split; [|left]].
    destruct v as [| | | | | |d]; try (subst p; by split; [|left]).
    unfold ret in Hp. cbn [fst snd] in Hp.
    destruct (bank_service.load_items (map_to_list d) s) as [[[]|e] s'].
    + subst p. split; [done|]. right. by eexists.
    + subst p. split; [by destruct e|]. right. by eexists.
  - remember (load_tasks s) as p eqn:Hp.
    unfold load_tasks, try_except, bind in Hp.
    unfold get_self, open_r_json_load, iter in Hp.
    cbn [fst snd self world] in Hp.
    destruct (files (world s) !! data_source (self s))
      as [[text|v]|]; [subst p; by split; [|left]| |subst p; by split; [|left]].
    destruct v as [| | | | |l|d]; try (subst p; by split; [|left]);
      unfold ret in Hp; cbn [fst snd] in Hp.
    all: match type of Hp with
         | context [from_dicts ?l ?x] =>
             destruct (from_dicts l x) as [[ts|e] s']
         end.
    all: subst p; split; [by try destruct e|right; by eexists].
Qed.

End task_persistence.

(** ** The methods of the task service, one by one *)

Section task_methods.
Import task task_service.
Implicit Types (s : Sys TaskService) (i : Z) (t : Task) (ts : list Task).

Lemma save_tasks_world s :
  world (save_tasks s).2
    = tasks_saved (data_source (self s)) (tasks (self s)) (world s).
Proof. rewrite save_tasks_run. unfold tasks_saved. by case_bool_decide. Qed.

Lemma all_nonempty (l : list string) :
  Forall (λ x, x ≠ "") l → all l = true.
Proof.
  induction 1 as [|x l Hx _ IH]; [done|]. cbn.
  apply String.eqb_neq in Hx. by rewrite Hx.
Qed.

Lemma all_empty (l : list string) : "" ∈ l → all l = false.
Proof.
  induction l as [|x l IH]; [by intros ?%elem_of_nil|].
  intros [<-|Hin]%elem_of_cons; cbn; [done|].
  unfold all in IH. rewrite (IH Hin). by destruct (negb _).
Qed.

Lemma get_task_run s i :
  get_task i s =
    match find_task i (tasks (self s)) with
    | Some t => (Return (Some t), s)
    | None =>
        (Return None,
         mkSys (self s)
           (logged (mkLogRecord WARNING
                      [Lit "Task with ID "; Int i; Lit " not found."] false)
              (world s)))
    end.
Proof.
  unfold get_task. run_monad. by destruct (find_task i (tasks (self s))).
Qed.

Lemma delete_task_run s i :
  delete_task i s =
    match find_task i (tasks (self s)) with
    | Some t =>
        let left := remove i (tasks (self s)) in
        (Return true,
         mkSys (mkTaskService (data_source (self s)) left)
           (logged (mkLogRecord INFO [Lit "Task deleted: "; Lit (title t)] false)
              (tasks_saved (data_source (self s)) left (world s))))
    | None =>
        (Return false,
         mkSys (self s)
           (logged (mkLogRecord WARNING
                      [Lit "Task with ID "; Int i; Lit " not found."] false)
              (world s)))
    end.
Proof.
  unfold delete_task, get_task, set_tasks. run_monad.
  destruct (find_task i (tasks (self s))) as [t|]; run_monad; [|done].
  rewrite !save_tasks_run. unfold tasks_saved. cbn.
  by case_bool_decide.
Qed.

Lemma find_task_None i ts : i ∉ task_id <$> ts → find_task i ts = None.
Proof.
  induction ts as [|u ts IH]; [done|]. cbn.
  intros [Hne Hin]%not_elem_of_cons. rewrite bool_decide_eq_false_2 by done.
  by apply IH.
Qed.

Lemma find_task_snoc i ts t :
  i ∉ task_id <$> ts → task_id t = i → find_task i (ts ++ [t]) = Some t.
Proof.
  induction ts as [|u ts IH]; cbn.
  - intros _ ->. by rewrite bool_decide_eq_true_2.
  - intros [Hne Hin]%not_elem_of_cons Ht.
    rewrite bool_decide_eq_false_2 by done. by apply IH.
Qed.

Lemma find_task_assign i (f : Task → Task) ts t :
  find_task i ts = Some t → task_id (f t) = i →
  find_task i (assign i f ts) = Some (f t).
Proof.
  induction ts as [|u ts IH]; [done|]. cbn. case_bool_decide as Hu; cbn.
  - intros [= ->] Hf. by rewrite bool_decide_eq_true_2.
  - intros Hfind Hf. rewrite bool_decide_eq_false_2 by done. by apply IH.
Qed.

Lemma find_task_remove i ts :
  NoDup (task_id <$> ts) → find_task i (remove i ts) = None.
Proof.
  induction ts as [|u ts IH]; [done|]. cbn.
  intros [Hu Hnd]%list.NoDup_cons. case_bool_decide as Hi; cbn.
  - subst i. by apply find_task_None.
  - rewrite bool_decide_eq_false_2 by done. by apply IH.
Qed.

Lemma remove_sublist i ts : remove i ts `sublist_of` ts.
Proof.
  induction ts as [|u ts IH]; [done|]. cbn. case_bool_decide.
  - by apply sublist_cons.
  - by apply sublist_skip.
Qed.

Lemma new_id_fresh ts : (max (task_id <$> ts) 0 + 1)%Z ∉ task_id <$> ts.
Proof. intros Hin. pose proof (max_ge _ 0 _ Hin). lia. Qed.

(** X12. [create_task] with an empty title, description or due date
    raises [ValueError], logs it, and leaves the tasks and the files as
    they were.  With three non-empty fields it returns a task with the
    next id, these fields and the status "To Do", appends it to the
    list and runs [save_tasks] on the new list. *)
Theorem create_task_spec s ti d dd :
  (ti = "" ∨ d = "" ∨ dd = "" →
   ∃ msg,
     create_task ti d dd s =
       (Raise (ValueError msg),
        mkSys (self s)
          (logged (mkLogRecord ERROR
                     [Lit "Error creating task: "; Exc (ValueError msg)] false)
             (world s))))
  ∧ (ti ≠ "" → d ≠ "" → dd ≠ "" →
     let new_task := mkTask (max (ids s) 0 + 1) ti d dd "To Do" in
     let grown := tasks (self s) ++ [new_task] in
     create_task ti d dd s =
       (Return new_task,
        mkSys (mkTaskService (data_source (self s)) grown)
          (logged (mkLogRecord INFO [Lit "Task created: "; Lit ti] false)
             (tasks_saved (data_source (self s)) grown (world s))))).
Proof.
  rewrite create_task_run. split.
  - intros Hempty. rewrite all_empty; [by eexists|].
    destruct Hempty as [-> | [-> | ->]]; set_solver.
  - intros H1 H2 H3. rewrite all_nonempty by (by repeat constructor).
    cbn zeta. by rewrite save_tasks_world.
Qed.

Lemma create_task_spec_witness :
  (∃ msg,
     create_task "" "Weekly memo" "2024-03-20" tasks2 =
       (Raise (ValueError msg),
        mkSys (self tasks2)
          (logged (mkLogRecord ERROR
                     [Lit "Error creating task: "; Exc (ValueError msg)] false)
             w_empty)))
  ∧ (let new_task := mkTask 3 "Plan" "Next quarter" "2024-04-01" "To Do" in
     create_task "Plan" "Next quarter" "2024-04-01" tasks2 =
       (Return new_task,
        mkSys (mkTaskService "tasks.json" [report; memo; new_task])
          (logged (mkLogRecord INFO [Lit "Task created: "; Lit "Plan"] false)
             (tasks_saved "tasks.json" [report; memo; new_task] w_empty)))).
Proof.
  split.
  - apply (proj1 (create_task_spec tasks2 "" "Weekly memo" "2024-03-20")).
    by left.
  - by apply (proj2 (create_task_spec tasks2 "Plan" "Next quarter" "2024-04-01")).
Defined.

(** X13. [update_task] of an id that no task has returns [None] and
    only logs a warning.  For an id that a task has, an empty title,
    description, due date or status raises [ValueError] and leaves the
    tasks and the files as they were; with four non-empty fields the
    first task with the id gets them, keeps its id and its place in
    the list, is returned, and [save_tasks] runs. *)
Theorem update_task_spec s i ti d dd st :
  (find_task i (tasks (self s)) = None →
   ∃ msg, update_task i ti d dd st s =
     (Return None,
      mkSys (self s) (logged (mkLogRecord WARNING msg false) (world s))))
  ∧ (∀ t, find_task i (tasks (self s)) = Some t →
       ti = "" ∨ d = "" ∨ dd = "" ∨ st = "" →
       ∃ msg,
         update_task i ti d dd st s =
           (Raise (ValueError msg),
            mkSys (self s)
              (logged (mkLogRecord ERROR
                         [Lit "Error updating task: "; Exc (ValueError msg)] false)
                 (world s))))
  ∧ (∀ t, find_task i (tasks (self s)) = Some t →
       ti ≠ "" → d ≠ "" → dd ≠ "" → st ≠ "" →
       let assignments u := mkTask (task_id u) ti d dd st in
       let changed := assign i assignments (tasks (self s)) in
       update_task i ti d dd st s =
         (Return (Some (mkTask i ti d dd st)),
          mkSys (mkTaskService (data_source (self s)) changed)
            (logged (mkLogRecord INFO [Lit "Task updated: "; Lit ti] false)
               (tasks_saved (data_source (self s)) changed (world s))))
       ∧ length changed = length (tasks (self s))).
Proof.
  rewrite update_task_run. split; [|split].
  - intros ->. by eexists.
  - intros t -> Hempty. rewrite all_empty; [by eexists|].
    destruct Hempty as [-> | [-> | [-> | ->]]]; set_solver.
  - intros t Ht H1 H2 H3 H4. rewrite Ht.
    rewrite all_nonempty by (by repeat constructor).
    cbn zeta. rewrite save_tasks_world. cbn.
    rewrite (find_task_id _ _ _ Ht). split; [done|].
    clear. induction (tasks (self s)) as [|u ts IH]; [done|]. cbn.
    case_bool_decide; cbn; by rewrite ?IH.
Qed.

Lemma update_task_spec_witness :
  (∃ msg, update_task 99 "Memo" "Weekly memo" "2024-03-27" "Completed" tasks2 =
     (Return None,
      mkSys (self tasks2) (logged (mkLogRecord WARNING msg false) w_empty)))
  ∧ (∃ msg,
       update_task 2 "" "Weekly memo" "2024-03-27" "Completed" tasks2 =
         (Raise (ValueError msg),
          mkSys (self tasks2)
            (logged (mkLogRecord ERROR
                       [Lit "Error updating task: "; Exc (ValueError msg)] false)
               w_empty)))
  ∧ (let done_memo := mkTask 2 "Memo" "Weekly memo" "2024-03-27" "Completed" in
     update_task 2 "Memo" "Weekly memo" "2024-03-27" "Completed" tasks2 =
       (Return (Some done_memo),
        mkSys (mkTaskService "tasks.json" [report; done_memo])
          (logged (mkLogRecord INFO [Lit "Task updated: "; Lit "Memo"] false)
             (tasks_saved "tasks.json" [report; done_memo] w_empty)))
     ∧ length [report; done_memo] = length [report; memo]).
Proof.
  split; [|split].
  - by apply (proj1 (update_task_spec tasks2 99 "Memo" "Weekly memo"
                       "2024-03-27" "Completed")).
  - apply (proj1 (proj2 (update_task_spec tasks2 2 "" "Weekly memo"
                           "2024-03-27" "Completed")) memo eq_refl).
    by left.
  - by apply (proj2 (proj2 (update_task_spec tasks2 2 "Memo" "Weekly memo"
                              "2024-03-27" "Completed")) memo eq_refl).
Defined.

End task_methods.

(** ** Looking tasks up, and what every call of the task service keeps *)

Section task_invariants.
Import task task_service.
Implicit Types (s : Sys TaskService) (i : Z) (t : Task) (ts : list Task).

(** X14. [get_task] finds the task that [create_task] just returned
    under its id, and the task that [update_task] just returned under
    the id updated; when the ids of the list are pairwise distinct, it
    returns [None] for an id that [delete_task] just deleted. *)
Theorem get_task_after s s' :
  (∀ ti d dd t,
     create_task ti d dd s = (Return t, s') →
     get_task (task_id t) s' = (Return (Some t), s'))
  ∧ (∀ i ti d dd st t,
       update_task i ti d dd st s = (Return (Some t), s') →
       get_task i s' = (Return (Some t), s'))
  ∧ (∀ i,
       NoDup (ids s) →
       delete_task i s = (Return true, s') →
       ∃ msg, get_task i s' =
         (Return None,
          mkSys (self s') (logged (mkLogRecord WARNING msg false) (world s')))).
Proof.
  split; [|split].
  - intros ti d dd t. rewrite create_task_run.
    destruct (all _); [|done]. cbn zeta. intros [= <- <-].
    rewrite get_task_run. cbn.
    by rewrite find_task_snoc by (by try apply new_id_fresh).
  - intros i ti d dd st t. rewrite update_task_run.
    destruct (find_task i (tasks (self s))) as [u|] eqn:Hu; [|done].
    destruct (all _); [|done]. cbn zeta. intros [= <- <-].
    rewrite get_task_run. cbn.
    by rewrite (find_task_assign _ _ _ _ Hu) by (cbn; by eapply find_task_id).
  - intros i Hnd. rewrite delete_task_run.
    destruct (find_task i (tasks (self s))) as [u|]; [|done].
    cbn zeta. intros [= <-]. rewrite get_task_run. cbn.
    rewrite find_task_remove by done. by eexists.
Qed.

Lemma get_task_after_witness :
  (let s' := (create_task "Plan" "Next quarter" "2024-04-01" tasks2).2 in
   get_task 3 s'
     = (Return (Some (mkTask 3 "Plan" "Next quarter" "2024-04-01" "To Do")), s'))
  ∧ (let s' := (delete_task 2 tasks2).2 in
     ∃ msg, get_task 2 s' =
       (Return None,
        mkSys (self s') (logged (mkLogRecord WARNING msg false) (world s')))).
Proof.
  split.
  - apply (proj1 (get_task_after tasks2
                    (create_task "Plan" "Next quarter" "2024-04-01" tasks2).2)
             "Plan" "Next quarter" "2024-04-01"
             (mkTask 3 "Plan" "Next quarter" "2024-04-01" "To Do")).
    reflexivity.
  - apply (proj2 (proj2 (get_task_after tasks2 (delete_task 2 tasks2).2)) 2%Z).
    + apply (bool_decide_unpack _). by vm_compute.
    + reflexivity.
Defined.

(** One call of a session keeps the ids pairwise distinct. *)
Lemma task_perform_unique (c : task_session.call) s :
  NoDup (ids s) → NoDup (ids (task_session.perform c s).2).
Proof.
  intros Hnd. destruct c as [ti d dd|i ti d dd st|i|i];
    cbn [task_session.perform]; unfold bind, ret.
  - rewrite create_task_run. destruct (all _); cbn; [|done].
    unfold ids. cbn. rewrite fmap_app. apply list.NoDup_app.
    split; [done|]. split; [|apply NoDup_singleton].
    intros x Hx ->%list_elem_of_singleton. by eapply new_id_fresh.
  - rewrite update_task_run. destruct (find_task i _); [|done].
    destruct (all _); cbn; [|done]. unfold ids. cbn.
    by rewrite task_id_assign.
  - rewrite delete_task_run. destruct (find_task i _); [|done]. cbn.
    unfold ids. cbn. eapply sublist_NoDup; [exact Hnd|].
    apply fmap_sublist, remove_sublist.
  - rewrite get_task_run. by destruct (find_task i _).
Qed.

(** X15. When the ids of the tasks are pairwise distinct, they are so
    after every sequence of [create_task], [update_task], [delete_task]
    and [get_task]: the service never gives two tasks of its list the
    same id. *)
Theorem task_ids_stay_unique (cs : list task_session.call) s :
  NoDup (ids s) → NoDup (ids (task_session.run cs s).2).
Proof.
  revert s. induction cs as [|c cs IH]; intros s Hnd; [done|].
  cbn [task_session.run]. pose proof (task_perform_unique c s Hnd) as Hc.
  destruct (task_session.perform c s) as [r s1]. specialize (IH s1 Hc).
  by destruct (task_session.run cs s1) as [rs s2].
Qed.

Lemma task_ids_stay_unique_witness :
  NoDup (ids (task_session.run create_delete_create tasks2).2).
Proof.
  apply (task_ids_stay_unique create_delete_create tasks2).
  apply (bool_decide_unpack _). by vm_compute.
Defined.

(** One call of a session, where the file can be written and holds the
    tasks of the service: both are so afterwards. *)
Lemma task_perform_in_sync (c : task_session.call) s :
  data_source (self s) ∉ unwritable (world s) → tasks_in_sync s →
  (data_source (self (task_session.perform c s).2)
     ∉ unwritable (world (task_session.perform c s).2))
  ∧ tasks_in_sync (task_session.perform c s).2.
Proof.
  intros Hw Hsync. unfold tasks_in_sync in *.
  destruct c as [ti d dd|i ti d dd st|i|i];
    cbn [task_session.perform]; unfold bind, ret.
  - rewrite create_task_run. destruct (all _); cbn; [|done].
    rewrite !save_tasks_world. unfold tasks_saved. cbn.
    rewrite !bool_decide_eq_false_2 by done. cbn. by rewrite lookup_insert_eq.
  - rewrite update_task_run. destruct (find_task i _); [|done].
    destruct (all _); cbn; [|done].
    rewrite !save_tasks_world. unfold tasks_saved. cbn.
    rewrite !bool_decide_eq_false_2 by done. cbn. by rewrite lookup_insert_eq.
  - rewrite delete_task_run. destruct (find_task i _); [|done]. cbn.
    unfold tasks_saved. rewrite !bool_decide_eq_false_2 by done. cbn.
    by rewrite lookup_insert_eq.
  - rewrite get_task_run. by destruct (find_task i _).
Qed.

(** X16. Where the file of the task service can be written and holds
    the tasks of the service, it holds the tasks of the service after
    every sequence of [create_task], [update_task], [delete_task] and
    [get_task], rejected calls included. *)
Theorem tasks_stay_in_sync (cs : list task_session.call) s :
  data_source (self s) ∉ unwritable (world s) → tasks_in_sync s →
  tasks_in_sync (task_session.run cs s).2.
Proof.
  revert s. induction cs as [|c cs IH]; intros s Hw Hsync; [done|].
  cbn [task_session.run].
  destruct (task_perform_in_sync c s Hw Hsync) as [Hw' Hsync'].
  destruct (task_session.perform c s) as [r s1]. cbn in Hw', Hsync'.
  specialize (IH s1 Hw' Hsync').
  by destruct (task_session.run cs s1) as [rs s2].
Qed.

Lemma tasks_stay_in_sync_witness :
  let s := (save_tasks tasks2).2 in
  tasks_in_sync (task_session.run create_delete_create s).2.
Proof.
  apply (tasks_stay_in_sync create_delete_create (save_tasks tasks2).2);
    by vm_compute.
Defined.

(** X17. A task service built over a path other than "tasks.json" does
    not read the file.  Whatever tasks the file holds, the first
    [create_task] assigns the id 1, and where the file can be written
    its content is replaced by that one task. *)
Theorem other_path_starts_empty (path : string) (w : World) ti d dd :
  path ≠ "tasks.json" → path ∉ unwritable w →
  ti ≠ "" → d ≠ "" → dd ≠ "" →
  let new_task := mkTask 1 ti d dd "To Do" in
  task_service.__init__ path w = (Return (), mkSys (mkTaskService path []) w)
  ∧ (create_task ti d dd (task_service.__init__ path w).2).1 = Return new_task
  ∧ files (world (create_task ti d dd (task_service.__init__ path w).2).2) !! path
    = Some (tasks_document [new_task]).
Proof.
  intros Hpath Hw H1 H2 H3. cbn zeta. unfold task_service.__init__.
  rewrite bool_decide_eq_false_2 by done. unfold ret. cbn [snd].
  split; [done|]. rewrite create_task_run.
  rewrite all_nonempty by (by repeat constructor). cbn.
  rewrite save_tasks_world. unfold tasks_saved. cbn.
  rewrite bool_decide_eq_false_2 by done. cbn. by rewrite lookup_insert_eq.
Qed.

Lemma other_path_starts_empty_witness :
  let w := world (save_tasks
                    (mkSys (mkTaskService "work.json" [report; memo]) w_empty)).2 in
  let new_task := mkTask 1 "Plan" "Next quarter" "2024-04-01" "To Do" in
  files w !! "work.json" = Some (tasks_document [report; memo])
  ∧ task_service.__init__ "work.json" w
    = (Return (), mkSys (mkTaskService "work.json" []) w)
  ∧ (create_task "Plan" "Next quarter" "2024-04-01"
       (task_service.__init__ "work.json" w).2).1 = Return new_task
  ∧ files (world (create_task "Plan" "Next quarter" "2024-04-01"
                    (task_service.__init__ "work.json" w).2).2) !! "work.json"
    = Some (tasks_document [new_task]).
Proof.
  intros w new_task. split; [by vm_compute|].
  apply (other_path_starts_empty "work.json" w
           "Plan" "Next quarter" "2024-04-01"); by vm_compute.
Defined.

End task_invariants.

(** ** The ledger of a BankAccount *)

Section bank_account_sessions.
Import bank_account bank_account_session.

Lemma bank_account_perform (c : call) (acc : BankAccount) :
  let acc' :=
    if accepted c acc
    then mkBankAccount (balance acc + effect c) (transactions acc ++ [line c])
    else acc in
  perform c acc = (Return (balance acc'), acc').
Proof.
  destruct c as [amount|amount|]; cbn [perform accepted effect line];
    unfold bank_account.deposit, bank_account.withdraw, bank_account.get_balance;
    run_monad; [| |done].
  - by case_bool_decide.
  - by destruct (bool_decide (0 < amount)%Z && bool_decide (amount <= balance acc)%Z).
Qed.

(** X18. Over every sequence of [deposit], [withdraw] and [get_balance]
    on a [BankAccount], every call returns; the transactions are the
    old ones followed by one line for each accepted call, in order; the
    balance is the old one plus the accepted deposits minus the
    accepted withdrawals; and a balance that was not negative is not
    negative at the end. *)
Theorem bank_account_ledger (cs : list call) (acc : BankAccount) :
  let final := (run cs acc).2 in
  Forall (λ r, ∃ z, r = Return z) (run cs acc).1
  ∧ transactions final = transactions acc ++ (line <$> accepted_calls cs acc)
  ∧ balance final
    = (balance acc + foldr Z.add 0 (effect <$> accepted_calls cs acc))%Z
  ∧ ((0 <= balance acc)%Z → (0 <= balance final)%Z).
Proof.
  cbn zeta. revert acc. induction cs as [|c cs IH]; intros acc.
  { cbn. split; [constructor|]. split; [by rewrite app_nil_r|]. split; lia. }
  cbn [run accepted_calls]. pose proof (bank_account_perform c acc) as Hc.
  cbn zeta in Hc.
  assert (accepted c acc = true → (0 <= balance acc)%Z →
          (0 <= balance acc + effect c)%Z) as Hstep.
  { destruct c as [amount|amount|]; cbn [accepted effect]; [| |done].
    - intros ?%bool_decide_eq_true. lia.
    - intros [_ ?%bool_decide_eq_true]%andb_true_iff. lia. }
  destruct (accepted c acc) eqn:Hacc; rewrite Hc; cbn [snd].
  - destruct (IH (mkBankAccount (balance acc + effect c)
                    (transactions acc ++ [line c]))) as (Hret & Htr & Hbal & Hpos).
    destruct (run cs _) as [rs final]. cbn [fst snd] in *.
    split; [constructor; [by eexists|done]|].
    split; [rewrite Htr; cbn; by rewrite <-app_assoc|].
    split; [rewrite Hbal; cbn; lia|]. intros H. by apply Hpos, Hstep.
  - destruct (IH acc) as (Hret & Htr & Hbal & Hpos).
    destruct (run cs _) as [rs final]. cbn [fst snd] in *.
    split; [constructor; [by eexists|done]|]. done.
Qed.

Lemma bank_account_ledger_witness :
  let cs := [deposit 50; withdraw 500; withdraw 30; deposit (-5); get_balance] in
  let final := (run cs (__init__ 100)).2 in
  Forall (λ r, ∃ z, r = Return z) (run cs (__init__ 100)).1
  ∧ transactions final = ["Deposited 50"; "Withdrew 30"]
  ∧ balance final = 120%Z
  ∧ (0 <= balance final)%Z.
Proof.
  intros cs final.
  destruct (bank_account_ledger cs (__init__ 100)) as (H1 & H2 & H3 & H4).
  split; [exact H1|]. split; [exact H2|]. split; [exact H3|].
  apply H4. cbn. lia.
Defined.

End bank_account_sessions.

(** ** Account numbers and listings *)

Section bank_listing.
Import account bank_service.

(** X19. [_generate_account_number] leaves the service as it is, and
    services with different numbers of accounts get different account
    numbers, also beyond the 9999 accounts that fit four digits. *)
Theorem generated_numbers_differ (s s' : Sys BankService) :
  (_generate_account_number s).2 = s
  ∧ (size (accounts (self s)) ≠ size (accounts (self s')) →
     (_generate_account_number s).1 ≠ (_generate_account_number s').1).
Proof.
  unfold _generate_account_number. run_monad. split; [done|].
  intros Hsize Heq. apply Hsize.
  assert (number (size (accounts (self s)) + 1)
          = number (size (accounts (self s')) + 1)) as Hn
    by (unfold number; congruence).
  apply number_inj in Hn. lia.
Qed.

Lemma generated_numbers_differ_witness :
  (_generate_account_number bank0).2 = bank0
  ∧ (_generate_account_number bank0).1 ≠ (_generate_account_number bank_empty).1.
Proof.
  destruct (generated_numbers_differ bank0 bank_empty) as [H1 H2].
  split; [exact H1|]. apply H2. by vm_compute.
Defined.

(** X20. [list_all_accounts] returns the stored accounts and nothing
    else: an account is in the list exactly when it is stored under
    some number, the list is as long as the bank has accounts, and the
    service is as it was. *)
Theorem list_all_accounts_spec (s : Sys BankService) :
  ∃ l, list_all_accounts s = (Return l, s)
       ∧ length l = size (accounts (self s))
       ∧ ∀ acc, acc ∈ l ↔ ∃ n, accounts (self s) !! n = Some acc.
Proof.
  unfold list_all_accounts. run_monad. eexists. split; [done|]. split.
  - by rewrite length_fmap, length_map_to_list.
  - intros acc. rewrite list_elem_of_fmap. split.
    + intros ([n acc'] & -> & Hin%elem_of_map_to_list). by exists n.
    + intros [n Hn]. exists (n, acc). split; [done|]. by apply elem_of_map_to_list.
Qed.

End bank_listing.
